(** * chatbotX: the session and message-synchronisation logic of [src/App.js]

    The React component [App] keeps four state variables ([messages],
    [input], [isLoading], [sessionId]), one [localStorage] item and talks to
    a remote service through axios.  This development embeds the handlers
    [loadHistory], [sendMessage], [clearChat], [handleKeyPress] and the mount
    effect as programs of a small state-and-exception monad, and the
    component as a transition system over the events it can receive.

    Conventions of the embedding.
    - JavaScript values that arrive in a response body are JSON values (plus
      [undefined], the value of a missing property).  Numbers are the
      integer-valued ones.
    - A string is a sequence of code units; the model keeps the code units
      below 256, one [ascii] each.
    - An [async] function is cut at its single [await]: the part before it
      issues the request, the part after it is resumed with the way the
      request settled.  Each part runs to completion on the event loop.
    - A state setter takes effect at once.  No handler reads a state
      variable after it has set it, so this agrees with React's deferred
      update; [setMessages] with a function argument is applied to the
      state current when it runs, as React does.
    - The clock ([Date.now()], [new Date()]) and the answer of
      [window.confirm] are inputs of the part that reads them. *)

From Stdlib Require Import ZArith List String Ascii Bool Lia.
From Stdlib Require Import DecimalString DecimalZ.
Import ListNotations.
Open Scope string_scope.
Open Scope list_scope.
Set Warnings "-register-all".

(* ===================================================================== *)
(** ** JavaScript values and the operations the handlers apply to them *)
(* ===================================================================== *)

Module Js.

Inductive Value : Type :=
| Undefined
| Null
| Boolean (b : bool)
| Num (n : Z)
| Str (s : string)
| Arr (l : list Value)
| Obj (fields : list (string * Value)).

(** What a [throw] carries: a [TypeError] raised by the language, or the
    reason axios rejects a request with (network failure, status outside
    2xx, timeout). *)
Inductive Error : Type :=
| TypeError (msg : string)
| AxiosError (msg : string).

Inductive Completion (A : Type) : Type :=
| Normal (a : A)
| Throw (e : Error).
Arguments Normal {A} a.
Arguments Throw {A} e.

(** How a request settles: [Fulfilled data] carries [response.data]. *)
Inductive AxiosResult : Type :=
| Fulfilled (data : Value)
| Rejected (reason : Error).

(** [ToBoolean]. *)
Definition truthy (v : Value) : bool :=
  match v with
  | Undefined | Null => false
  | Boolean b => b
  | Num n => negb (n =? 0)%Z
  | Str s => negb (s =? "")
  | Arr _ | Obj _ => true
  end.

Fixpoint lookup (k : string) (fields : list (string * Value)) : Value :=
  match fields with
  | [] => Undefined
  | (k', v) :: rest => if k' =? k then v else lookup k rest
  end.

(** [v.k] for the data properties the handlers read ([history], [length],
    [content], [role], [timestamp], [response], [tools_used]): none of them
    is inherited from a prototype, and only [length] is an own property of a
    string or an array. *)
Definition getProp (v : Value) (k : string) : Completion Value :=
  match v with
  | Undefined =>
      Throw (TypeError ("Cannot read properties of undefined (reading '" ++ k ++ "')")%string)
  | Null =>
      Throw (TypeError ("Cannot read properties of null (reading '" ++ k ++ "')")%string)
  | Obj fields => Normal (lookup k fields)
  | Arr l => Normal (if k =? "length" then Num (Z.of_nat (List.length l)) else Undefined)
  | Str s => Normal (if k =? "length" then Num (Z.of_nat (String.length s)) else Undefined)
  | Boolean _ | Num _ => Normal Undefined
  end.

(** [a || b]. *)
Definition orElse (a b : Value) : Value := if truthy a then a else b.

(** [v === 'user'] and the like. *)
Definition strictEqualsStr (v : Value) (s : string) : bool :=
  match v with
  | Str s' => s' =? s
  | _ => false
  end.

(** *** Strings *)

(** White space and line terminators among the code units below 256:
    TAB, LF, VT, FF, CR, SP and NBSP. *)
Definition isWhiteSpace (c : ascii) : bool :=
  let n := N_of_ascii c in
  ((9 <=? n) && (n <=? 13) || (n =? 32) || (n =? 160))%N.

Fixpoint trimStart (s : string) : string :=
  match s with
  | EmptyString => EmptyString
  | String c rest => if isWhiteSpace c then trimStart rest else s
  end.

Fixpoint trimEnd (s : string) : string :=
  match s with
  | EmptyString => EmptyString
  | String c rest =>
      match trimEnd rest with
      | EmptyString => if isWhiteSpace c then EmptyString else String c EmptyString
      | rest' => String c rest'
      end
  end.

(** [String.prototype.trim]. *)
Definition trim (s : string) : string := trimEnd (trimStart s).

(** A string of white space only. *)
Fixpoint blank (s : string) : bool :=
  match s with
  | EmptyString => true
  | String c rest => isWhiteSpace c && blank rest
  end.

(** [ToString] of an integer-valued number, as in a template literal: the
    decimal digits, with a leading [-] below zero.  (JavaScript switches to
    exponent form from 10^21 on; a clock reading is far below.) *)
Definition numberToString (n : Z) : string := NilZero.string_of_int (Z.to_int n).

Fixpoint join (sep : string) (l : list string) : string :=
  match l with
  | [] => ""
  | [x] => x
  | x :: rest => (x ++ sep ++ join sep rest)%string
  end.

(** Whether a parsed object has a property of its own under [k]. *)
Definition hasOwn (k : string) (fields : list (string * Value)) : bool :=
  existsb (fun kv => fst kv =? k) fields.

(** [ToString], through [ToPrimitive] for arrays and objects.  An array is
    joined with commas, [undefined] and [null] elements being empty.  A
    parsed object inherits [Object.prototype.toString] unless it has a
    [toString] property of its own; that one cannot be called, and neither
    it nor [valueOf] yields a primitive, so the conversion throws. *)
Fixpoint toString (v : Value) : Completion string :=
  match v with
  | Undefined => Normal "undefined"
  | Null => Normal "null"
  | Boolean true => Normal "true"
  | Boolean false => Normal "false"
  | Num n => Normal (numberToString n)
  | Str s => Normal s
  | Arr l =>
      match (fix elements (l : list Value) : Completion (list string) :=
               match l with
               | [] => Normal []
               | x :: rest =>
                   match match x with
                         | Undefined | Null => Normal ""
                         | _ => toString x
                         end with
                   | Throw e => Throw e
                   | Normal sx =>
                       match elements rest with
                       | Throw e => Throw e
                       | Normal ss => Normal (sx :: ss)
                       end
                   end
               end) l with
      | Throw e => Throw e
      | Normal ss => Normal (join "," ss)
      end
  | Obj fields =>
      if hasOwn "toString" fields
      then Throw (TypeError "Cannot convert object to primitive value")
      else Normal "[object Object]"
  end.

(** The strings [Array.prototype.join] puts between the separators. *)
Fixpoint elementStrings (l : list Value) : Completion (list string) :=
  match l with
  | [] => Normal []
  | x :: rest =>
      match match x with
            | Undefined | Null => Normal ""
            | _ => toString x
            end with
      | Throw e => Throw e
      | Normal sx =>
          match elementStrings rest with
          | Throw e => Throw e
          | Normal ss => Normal (sx :: ss)
          end
      end
  end.

(** [ToPrimitive]: a primitive is itself, an array or an object becomes its
    string, if it has one. *)
Definition toPrimitive (v : Value) : Completion Value :=
  match v with
  | Arr _ | Obj _ =>
      match toString v with
      | Throw e => Throw e
      | Normal s => Normal (Str s)
      end
  | _ => Normal v
  end.

(** A value that can be made a primitive. *)
Definition convertible (v : Value) : Prop := exists p, toPrimitive v = Normal p.

Definition isDigit (c : ascii) : bool :=
  let n := N_of_ascii c in ((48 <=? n) && (n <=? 57))%N.

Fixpoint allDigits (s : string) : bool :=
  match s with
  | EmptyString => true
  | String c rest => isDigit c && allDigits rest
  end.

Definition digitsToZ (s : string) : option Z :=
  match s with
  | EmptyString => None
  | _ => if allDigits s
         then option_map Z.of_uint (NilEmpty.uint_of_string s)
         else None
  end.

(** [StringToNumber] on the integer literals: white space around, an
    optional sign, decimal digits; the empty string is 0.  [None] is NaN.
    Literals with a fraction, an exponent, a radix prefix or [Infinity] are
    outside the integer-valued numbers of the model and read as NaN here. *)
Definition stringToNumber (s : string) : option Z :=
  match trim s with
  | EmptyString => Some 0%Z
  | String c rest =>
      if (c =? "-")%char then option_map Z.opp (digitsToZ rest)
      else if (c =? "+")%char then digitsToZ rest
      else digitsToZ (String c rest)
  end.

(** [ToNumber] of a primitive; [None] is NaN. *)
Definition primitiveToNumber (p : Value) : option Z :=
  match p with
  | Undefined => None
  | Null => Some 0%Z
  | Boolean b => Some (if b then 1 else 0)%Z
  | Num n => Some n
  | Str s => stringToNumber s
  | Arr _ | Obj _ => None
  end.

(** [ToNumber]; [None] is NaN. *)
Definition toNumber (v : Value) : Completion (option Z) :=
  match toPrimitive v with
  | Throw e => Throw e
  | Normal p => Normal (primitiveToNumber p)
  end.

(** [v > 0]. *)
Definition gtZero (v : Value) : Completion bool :=
  match toNumber v with
  | Throw e => Throw e
  | Normal (Some n) => Normal (0 <? n)%Z
  | Normal None => Normal false
  end.

End Js.

(* ===================================================================== *)
(** ** The component [App] *)
(* ===================================================================== *)

Module App.
Import Js.

(** *** Data *)

(** The [sender] of a message object: ['user'] or ['ai']. *)
Inductive Sender : Type := user | ai.

(** A [Date] object, by the constructor call that made it: [new Date()]
    when the clock reads [ms], or [new Date(v)] for a value [v] the
    constructor accepts (see [newDate]). *)
Inductive Date : Type :=
| DateNow (ms : Z)
| DateOf (v : Value).

(** [new Date(v)]: the constructor first makes [v] a primitive, which
    throws for a value that has none; the primitive is then parsed or read
    as a number, which does not throw. *)
Definition newDate (v : Value) : Completion Date :=
  match toPrimitive v with
  | Throw e => Throw e
  | Normal _ => Normal (DateOf v)
  end.

(** A message object of the thread.  A property the object literal does
    not set reads as [Undefined]. *)
Record Message : Type := mkMessage {
  text : Value;
  sender : Sender;
  timestamp : Date;
  toolsUsed : Value;
  isError : Value
}.

(** A request handed to axios, by the call that made it. *)
Inductive Request : Type :=
| GetHistory (sid : string)                 (* axios.get   /api/history/${sid} *)
| PostChat (message session_id : string)    (* axios.post  /api/chat *)
| DeleteSession (sid : string).             (* axios.delete /api/session/${sessionId} *)

(** The state of a mounted component: the four [useState] variables, the
    [sessionId] item of [localStorage], the lines written by
    [console.error], and the requests that have not settled yet. *)
Record AppState : Type := mkState {
  messages : list Message;
  input : string;
  isLoading : bool;
  sessionId : string;
  localStorage : option string;
  console : list (string * Error);
  pending : list Request
}.

(** *** The monad of handler code: state that survives a [throw] *)

Definition M (A : Type) : Type := AppState -> Completion A * AppState.

Definition ret {A} (a : A) : M A := fun s => (Normal a, s).

Definition bind {A B} (m : M A) (k : A -> M B) : M B :=
  fun s => match m s with
           | (Normal a, s') => k a s'
           | (Throw e, s') => (Throw e, s')
           end.

Notation "x <- m ;; k" := (bind m (fun x => k))
  (at level 61, m at next level, right associativity).
Notation "m ;; k" := (bind m (fun _ => k))
  (at level 61, right associativity).

Definition lift {A} (c : Completion A) : M A := fun s => (c, s).

Definition read : M AppState := fun s => (Normal s, s).

(** [try { body } catch (error) { handler }] *)
Definition tryCatch {A} (body : M A) (handler : Error -> M A) : M A :=
  fun s => match body s with
           | (Normal a, s') => (Normal a, s')
           | (Throw e, s') => handler e s'
           end.

(** [try { body } finally { fin }] *)
Definition tryFinally {A} (body : M A) (fin : M unit) : M A :=
  fun s => match body s with
           | (c, s') => match fin s' with
                        | (Normal _, s'') => (c, s'')
                        | (Throw e, s'') => (Throw e, s'')
                        end
           end.

(** The state a program leaves, and how it completes. *)
Definition exec {A} (m : M A) (s : AppState) : AppState := snd (m s).
Definition completion {A} (m : M A) (s : AppState) : Completion A := fst (m s).

(** *** Setters and the outside world *)

Definition setMessages (f : list Message -> list Message) : M unit :=
  fun s => (Normal tt, mkState (f (messages s)) (input s) (isLoading s) (sessionId s)
                               (localStorage s) (console s) (pending s)).

Definition setInput (v : string) : M unit :=
  fun s => (Normal tt, mkState (messages s) v (isLoading s) (sessionId s)
                               (localStorage s) (console s) (pending s)).

Definition setIsLoading (b : bool) : M unit :=
  fun s => (Normal tt, mkState (messages s) (input s) b (sessionId s)
                               (localStorage s) (console s) (pending s)).

Definition setSessionId (v : string) : M unit :=
  fun s => (Normal tt, mkState (messages s) (input s) (isLoading s) v
                               (localStorage s) (console s) (pending s)).

(** [localStorage.getItem('sessionId')], [setItem] and [removeItem]. *)
Definition localStorage_getItem : M (option string) :=
  fun s => (Normal (localStorage s), s).

Definition localStorage_setItem (v : string) : M unit :=
  fun s => (Normal tt, mkState (messages s) (input s) (isLoading s) (sessionId s)
                               (Some v) (console s) (pending s)).

Definition localStorage_removeItem : M unit :=
  fun s => (Normal tt, mkState (messages s) (input s) (isLoading s) (sessionId s)
                               None (console s) (pending s)).

Definition console_error (label : string) (error : Error) : M unit :=
  fun s => (Normal tt, mkState (messages s) (input s) (isLoading s) (sessionId s)
                               (localStorage s) (console s ++ [(label, error)]) (pending s)).

(** Handing a request to axios: it is in flight until it settles. *)
Definition axios (r : Request) : M unit :=
  fun s => (Normal tt, mkState (messages s) (input s) (isLoading s) (sessionId s)
                               (localStorage s) (console s) (pending s ++ [r])).

(** [await p] for a request that settled as [r]. *)
Definition await (r : AxiosResult) : M Value :=
  match r with
  | Fulfilled data => ret data
  | Rejected reason => lift (Throw reason)
  end.

(** [`session_${Date.now()}`] *)
Definition newSessionId (now : Z) : string := ("session_" ++ numberToString now)%string.

(** *** [loadHistory] (lines 34-47) *)

(** The callback of [history.map]: one entry of the response to one
    message object. *)
Definition historyMessage (msg : Value) : Completion Message :=
  match getProp msg "content" with
  | Throw e => Throw e
  | Normal content =>
      match getProp msg "role" with
      | Throw e => Throw e
      | Normal role =>
          match getProp msg "timestamp" with
          | Throw e => Throw e
          | Normal ts =>
              match newDate ts with
              | Throw e => Throw e
              | Normal date =>
                  Normal (mkMessage content
                                    (if strictEqualsStr role "user" then user else ai)
                                    date Undefined Undefined)
              end
          end
      end
  end.

Fixpoint mapEntries (l : list Value) : Completion (list Message) :=
  match l with
  | [] => Normal []
  | msg :: rest =>
      match historyMessage msg with
      | Throw e => Throw e
      | Normal m =>
          match mapEntries rest with
          | Throw e => Throw e
          | Normal ms => Normal (m :: ms)
          end
      end
  end.

(** [history.map(msg => ...)]: only an array has a [map] to call. *)
Definition callMap (history : Value) : Completion (list Message) :=
  match history with
  | Arr l => mapEntries l
  | _ => Throw (TypeError "response.data.history.map is not a function")
  end.

(** Up to the [await]: the request is issued. *)
Definition loadHistory (sid : string) : M unit :=
  axios (GetHistory sid).

(** The body of the [try], from the [await] on. *)
Definition loadHistory_try (r : AxiosResult) : M unit :=
  data <- await r ;;
  history <- lift (getProp data "history") ;;
  nonEmpty <- (if truthy history
               then len <- lift (getProp history "length") ;; lift (gtZero len)
               else ret false) ;;
  if (nonEmpty : bool)
  then msgs <- lift (callMap history) ;; setMessages (fun _ => msgs)
  else ret tt.

Definition loadHistory_resume (r : AxiosResult) : M unit :=
  tryCatch (loadHistory_try r)
           (fun error => console_error "Failed to load history:" error).

(** *** The mount effect (lines 16-26) *)

Definition mount (now : Z) : M unit :=
  storedSessionId <- localStorage_getItem ;;
  match storedSessionId with
  | Some sid =>
      if negb (sid =? "")
      then setSessionId sid ;; loadHistory sid
      else setSessionId (newSessionId now) ;; localStorage_setItem (newSessionId now)
  | None => setSessionId (newSessionId now) ;; localStorage_setItem (newSessionId now)
  end.

(** *** [sendMessage] (lines 50-89) *)

Definition fallbackText : string := "Sorry, I encountered an error. Please try again.".

(** Up to the [await]: the guard, the optimistic append, the request. *)
Definition sendMessage (now : Z) : M unit :=
  s <- read ;;
  if negb (truthy (Str (trim (input s)))) then ret tt
  else
    let userMessage := mkMessage (Str (input s)) user (DateNow now) Undefined Undefined in
    setMessages (fun prev => prev ++ [userMessage]) ;;
    let currentInput := input s in
    setInput "" ;;
    setIsLoading true ;;
    axios (PostChat currentInput (sessionId s)).

(** The body of the [try], from the [await] on. *)
Definition sendMessage_try (r : AxiosResult) : M unit :=
  data <- await r ;;
  response <- lift (getProp data "response") ;;
  ts <- lift (getProp data "timestamp") ;;
  date <- lift (newDate ts) ;;
  tools_used <- lift (getProp data "tools_used") ;;
  let aiMessage := mkMessage response ai date (orElse tools_used (Arr [])) Undefined in
  setMessages (fun prev => prev ++ [aiMessage]).

Definition errorMessage (now : Z) : Message :=
  mkMessage (Str fallbackText) ai (DateNow now) Undefined (Boolean true).

Definition sendMessage_catch (now : Z) (error : Error) : M unit :=
  console_error "Error:" error ;;
  setMessages (fun prev => prev ++ [errorMessage now]).

Definition sendMessage_resume (r : AxiosResult) (now : Z) : M unit :=
  tryFinally (tryCatch (sendMessage_try r) (sendMessage_catch now))
             (setIsLoading false).

(** *** [clearChat] (lines 92-105) *)

(** Up to the [await]; [confirmed] is the answer of [window.confirm]. *)
Definition clearChat (confirmed : bool) : M unit :=
  if confirmed
  then s <- read ;; axios (DeleteSession (sessionId s))
  else ret tt.

Definition clearChat_try (r : AxiosResult) (now : Z) : M unit :=
  await r ;;
  setMessages (fun _ => []) ;;
  localStorage_removeItem ;;
  let newSessionId := newSessionId now in
  setSessionId newSessionId ;;
  localStorage_setItem newSessionId.

Definition clearChat_resume (r : AxiosResult) (now : Z) : M unit :=
  tryCatch (clearChat_try r now)
           (fun error => console_error "Error clearing session:" error).

(** *** [handleKeyPress] (lines 108-113) *)

Definition handleKeyPress (key : string) (shiftKey : bool) (now : Z) : M unit :=
  if (key =? "Enter") && negb shiftKey then sendMessage now else ret tt.

(** *** The component as a transition system *)

(** What can happen to a mounted component: the user edits the input,
    presses a key in it, clicks Send or Clear Chat, or a request settles. *)
Inductive Event : Type :=
| Change (value : string)
| KeyPress (key : string) (shiftKey : bool) (now : Z)
| ClickSend (now : Z)
| ClickClear (confirmed : bool)
| Settle (i : nat) (r : AxiosResult) (now : Z).

Fixpoint removeAt {A} (i : nat) (l : list A) : list A :=
  match l, i with
  | [], _ => []
  | _ :: rest, O => rest
  | x :: rest, S i' => x :: removeAt i' rest
  end.

(** The [i]-th request in flight leaves the list when it settles. *)
Definition settled (i : nat) : M unit :=
  fun s => (Normal tt, mkState (messages s) (input s) (isLoading s) (sessionId s)
                               (localStorage s) (console s) (removeAt i (pending s))).

(** The part of the handler that waits for a request. *)
Definition resume (req : Request) (r : AxiosResult) (now : Z) : M unit :=
  match req with
  | GetHistory _ => loadHistory_resume r
  | PostChat _ _ => sendMessage_resume r now
  | DeleteSession _ => clearChat_resume r now
  end.

(** [disabled={isLoading}] on the input (line 200) and
    [disabled={isLoading || !input.trim()}] on the Send button (line 205):
    a disabled control delivers no event. *)
Definition inputDisabled (s : AppState) : bool := isLoading s.
Definition sendDisabled (s : AppState) : bool :=
  isLoading s || negb (truthy (Str (trim (input s)))).

Definition dispatch (e : Event) (s : AppState) : AppState :=
  match e with
  | Change value => if inputDisabled s then s else exec (setInput value) s
  | KeyPress key shiftKey now =>
      if inputDisabled s then s else exec (handleKeyPress key shiftKey now) s
  | ClickSend now => if sendDisabled s then s else exec (sendMessage now) s
  | ClickClear confirmed => exec (clearChat confirmed) s
  | Settle i r now =>
      match nth_error (pending s) i with
      | None => s
      | Some req => exec (settled i ;; resume req r now) s
      end
  end.

(** [useState] initial values, with what [localStorage] holds at load. *)
Definition initial (stored : option string) : AppState :=
  mkState [] "" false "" stored [] [].

(** The component once mounted. *)
Definition boot (stored : option string) (now : Z) : AppState :=
  exec (mount now) (initial stored).

Inductive Reachable : AppState -> Prop :=
| reach_boot stored now : Reachable (boot stored now)
| reach_step e s : Reachable s -> Reachable (dispatch e s).

Definition isPostChat (r : Request) : bool :=
  match r with
  | PostChat _ _ => true
  | _ => false
  end.

(** The number of exchanges whose request is in flight. *)
Definition inFlight (s : AppState) : nat :=
  List.length (filter isPostChat (pending s)).

(** The settlements on which the [try] of [sendMessage] throws: the request
    was rejected, or the body is [null] or [undefined] and reading
    [response.data.response] raises a [TypeError]. *)
Definition sendThrows (r : AxiosResult) : bool :=
  match r with
  | Rejected _ => true
  | Fulfilled Null | Fulfilled Undefined => true
  | Fulfilled _ => false
  end.

(** The optimistic message of [sendMessage]. *)
Definition userMessage (value : string) (now : Z) : Message :=
  mkMessage (Str value) user (DateNow now) Undefined Undefined.

(** What an entry of a history response becomes: its [content] as text,
    sender [user] exactly when its [role] is the string ["user"] and [ai]
    otherwise, [new Date] of its [timestamp]. *)
Definition Hydrated (entry : Value) (m : Message) : Prop :=
  getProp entry "content" = Normal (text m) /\
  (sender m = user <-> getProp entry "role" = Normal (Str "user")) /\
  (sender m = ai <-> getProp entry "role" <> Normal (Str "user")) /\
  (exists ts, getProp entry "timestamp" = Normal ts /\ timestamp m = DateOf ts) /\
  toolsUsed m = Undefined /\ isError m = Undefined.

(** An entry whose properties can be read and whose [timestamp] can be
    made a date. *)
Definition readable (entry : Value) : Prop :=
  entry <> Undefined /\ entry <> Null /\
  (forall ts, getProp entry "timestamp" = Normal ts -> convertible ts).

(** The invariant of the component: the busy flag is set exactly while one
    chat request is in flight, and the input is empty while it is set. *)
Definition Gated (s : AppState) : Prop :=
  inFlight s = (if isLoading s then 1 else 0)%nat /\
  (isLoading s = true -> input s = "").

End App.

(* ===================================================================== *)
(** ** Sample states and responses *)
(* ===================================================================== *)

Module Samples.
Import Js App.

(** An idle component with one exchange in its thread. *)
Definition chatted : AppState :=
  mkState [mkMessage (Str "hi") user (DateNow 2) Undefined Undefined;
           mkMessage (Str "hello") ai (DateOf (Str "T")) (Arr []) Undefined]
          "" false "session_1" (Some "session_1") [] [].

(** An idle component with [ping] typed in. *)
Definition typedPing : AppState :=
  mkState [] "ping" false "session_1" (Some "session_1") [] [].

Definition pong : Value :=
  Obj [("response", Str "pong"); ("timestamp", Str "T"); ("tools_used", Arr [Str "lookup"])].

Definition twoEntries : list Value :=
  [Obj [("role", Str "user"); ("content", Str "hi"); ("timestamp", Str "T1")];
   Obj [("role", Str "assistant"); ("content", Str "hello"); ("timestamp", Str "T2")]].

Definition networkError : Error := AxiosError "Network Error".

(** A parsed object that cannot be made a primitive: its own [toString]
    hides the inherited one and cannot be called. *)
Definition noPrimitive : Value := Obj [("toString", Num 0)].

(** A resumed session whose user sends ["hi"] before the history arrives. *)
Definition sentBeforeHistory : AppState :=
  dispatch (ClickSend 6) (dispatch (Change "hi") (boot (Some "session_1") 5)).

End Samples.

(* ===================================================================== *)
(** ** What the component renders from a message (lines 149-174) *)
(* ===================================================================== *)

Module Render.
Import Js App.

(** [msg.sender] as the string the object holds. *)
Definition senderName (x : Sender) : string :=
  match x with
  | user => "user"
  | ai => "ai"
  end.

(** [`message ${msg.sender} ${msg.isError ? 'error' : ''}`] (line 150) *)
Definition className (msg : Message) : string :=
  ("message " ++ senderName (sender msg) ++ " "
   ++ (if truthy (isError msg) then "error" else ""))%string.

(** [Array.prototype.join]: each element is made a string, which can
    throw; [undefined] and [null] elements are empty. *)
Definition arrayJoin (sep : string) (l : list Value) : Completion string :=
  match elementStrings l with
  | Throw e => Throw e
  | Normal ss => Normal (join sep ss)
  end.



End Render.

(* ===================================================================== *)
(** ** Runs of the component *)
(* ===================================================================== *)

Module Trace.
Import Js App.

Definition isGetHistory (r : Request) : bool :=
  match r with
  | GetHistory _ => true
  | _ => false
  end.

(** The number of history requests in flight. *)
Definition historyLoads (s : AppState) : nat :=
  List.length (filter isGetHistory (pending s)).

(** The session id a request is made for. *)
Definition requestSession (r : Request) : string :=
  match r with
  | GetHistory sid => sid
  | PostChat _ session_id => session_id
  | DeleteSession sid => sid
  end.

Definition isUser (m : Message) : bool :=
  match sender m with
  | user => true
  | ai => false
  end.

(** An event that may replace the thread: the settling of a history
    request or of a deletion request. *)
Definition replaces (e : Event) (s : AppState) : bool :=
  match e with
  | Settle i _ _ =>
      match nth_error (pending s) i with
      | Some (GetHistory _) | Some (DeleteSession _) => true
      | _ => false
      end
  | _ => false
  end.

(** One turn of a conversation: the user types, clicks Send, and the
    request settles before anything else happens. *)
Record Turn : Type := mkTurn {
  typed : string;
  sentAt : Z;
  reply : AxiosResult;
  settledAt : Z
}.

Definition turn (t : Turn) (s : AppState) : AppState :=
  dispatch (Settle 0 (reply t) (settledAt t))
           (dispatch (ClickSend (sentAt t))
                     (dispatch (Change (typed t)) s)).

Definition converse (ts : list Turn) (s : AppState) : AppState :=
  fold_left (fun acc t => turn t acc) ts s.

(** The stored session id is the one in use, it is not empty, and every
    request in flight was made for a session id that is not empty. *)
Definition Identified (s : AppState) : Prop :=
  localStorage s = Some (sessionId s) /\
  sessionId s <> "" /\
  Forall (fun r => requestSession r <> "") (pending s).

(** A message as the handlers build them: [isError] is set on the fallback
    entry only, and a user message carries neither [toolsUsed] nor
    [isError]. *)
Definition WellShaped (m : Message) : Prop :=
  (isError m = Undefined \/ exists now, m = errorMessage now) /\
  (sender m = user -> toolsUsed m = Undefined /\ isError m = Undefined).

(** A session cleared while a send was in flight: the reply is for the
    former session id. *)
Definition clearedWhileSending : AppState :=
  dispatch (Settle 1 (Fulfilled (Str "")) 9)
           (dispatch (ClickClear true)
                     (dispatch (ClickSend 6)
                               (dispatch (Change "hi") (boot None 5)))).

Definition twoTurns : list Turn :=
  [mkTurn "ping" 2 (Fulfilled Samples.pong) 3;
   mkTurn "again" 4 (Rejected Samples.networkError) 5].

End Trace.

(* ===================================================================== *)
(** ** Properties *)
(* ===================================================================== *)

Import Js App.

(** Unfolds the monad and the primitive effects. *)
Ltac run :=
  unfold exec, completion, await, tryCatch, tryFinally, bind, ret, lift, read,
         setMessages, setInput, setIsLoading, setSessionId, localStorage_getItem,
         localStorage_setItem, localStorage_removeItem, console_error, axios,
         settled in *;
  simpl in *.

(** Splits on the outcome of the next read or test of a response body. *)
Ltac split_read :=
  match goal with
  | |- context [getProp ?v ?k] => destruct (getProp v k) eqn:?
  | |- context [truthy ?v] => destruct (truthy v) eqn:?
  | |- context [gtZero ?v] => destruct (gtZero v) as [[|]|] eqn:?
  | |- context [newDate ?v] => destruct (newDate v) eqn:?
  | |- context [callMap ?v] => destruct (callMap v) eqn:?
  end.

(** *** The guard of [sendMessage] *)

Lemma trim_blank_falsy (t : string) :
  trim t = "" -> negb (truthy (Str (trim t))) = true.
Proof. intros ->. reflexivity. Qed.

Lemma trim_text_truthy (t : string) :
  trim t <> "" -> negb (truthy (Str (trim t))) = false.
Proof.
  intros H. simpl. destruct (trim t =? "") eqn:E; [|reflexivity].
  apply String.eqb_eq in E. contradiction.
Qed.

Lemma trimEnd_blank (t : string) : trimEnd t = "" <-> blank t = true.
Proof.
  induction t as [|c rest IH]; simpl; [now split|].
  destruct (trimEnd rest) as [|c' rest'].
  - destruct (isWhiteSpace c); simpl; [|split; discriminate].
    split; intros _; [now apply IH|reflexivity].
  - split; [discriminate|]. intros H. apply andb_true_iff in H as [_ H].
    apply IH in H. discriminate.
Qed.

Lemma trimStart_blank (t : string) : blank t = true -> trimStart t = "".
Proof.
  induction t as [|c rest IH]; simpl; [reflexivity|].
  destruct (isWhiteSpace c); simpl; [exact IH|discriminate].
Qed.

Lemma blank_trimStart (t : string) : blank (trimStart t) = true -> blank t = true.
Proof.
  induction t as [|c rest IH]; simpl; [reflexivity|].
  destruct (isWhiteSpace c) eqn:E; simpl; [exact IH|].
  rewrite E. discriminate.
Qed.

(** The trimmed form is empty exactly for the strings of white space. *)
Lemma trim_blank (t : string) : trim t = "" <-> blank t = true.
Proof.
  unfold trim. rewrite trimEnd_blank. split.
  - apply blank_trimStart.
  - intros H. now rewrite (trimStart_blank t H).
Qed.

Lemma sendMessage_blank (now : Z) (s : AppState) :
  trim (input s) = "" -> sendMessage now s = (Normal tt, s).
Proof.
  intros H. unfold sendMessage, bind, read.
  rewrite (trim_blank_falsy _ H). reflexivity.
Qed.

Lemma sendMessage_text (now : Z) (s : AppState) :
  trim (input s) <> "" ->
  sendMessage now s =
  (Normal tt,
   mkState (messages s ++ [mkMessage (Str (input s)) user (DateNow now) Undefined Undefined])
           "" true (sessionId s) (localStorage s) (console s)
           (pending s ++ [PostChat (input s) (sessionId s)])).
Proof.
  intros H. unfold sendMessage, bind, read.
  rewrite (trim_text_truthy _ H). reflexivity.
Qed.

(** C5: when the trimmed input is empty, [sendMessage] returns at its guard:
    it completes normally and the whole state (thread, busy flag, requests in
    flight) is the one it started from. *)
Theorem sendMessage_blank_noop (now : Z) (s : AppState) :
  trim (input s) = "" ->
  completion (sendMessage now) s = Normal tt /\
  exec (sendMessage now) s = s /\
  messages (exec (sendMessage now) s) = messages s /\
  isLoading (exec (sendMessage now) s) = isLoading s /\
  pending (exec (sendMessage now) s) = pending s.
Proof.
  intros H. unfold completion, exec. rewrite (sendMessage_blank now s H).
  repeat split.
Qed.

Lemma sendMessage_blank_noop_witness :
  trim "   " = "" /\
  exec (sendMessage 7) (mkState [] "   " false "session_1" (Some "session_1") [] []) =
  mkState [] "   " false "session_1" (Some "session_1") [] [] /\
  exec (sendMessage 7) Samples.chatted = Samples.chatted.
Proof.
  split; [reflexivity|]. split.
  - apply (sendMessage_blank_noop 7 (mkState [] "   " false "session_1" (Some "session_1") [] [])).
    reflexivity.
  - apply (sendMessage_blank_noop 7 Samples.chatted). reflexivity.
Defined.

(** *** [clearChat] *)

(** C10: when the user declines the confirmation, [clearChat] does nothing:
    no request is issued and the state, thread and stored session id
    included, is the one it started from. *)
Theorem clearChat_declined_noop (s : AppState) :
  clearChat false s = (Normal tt, s) /\ dispatch (ClickClear false) s = s.
Proof. split; reflexivity. Qed.

(** *** What the resumed handlers leave alone *)

Lemma loadHistory_resume_frame (r : AxiosResult) (s : AppState) :
  let s' := exec (loadHistory_resume r) s in
  input s' = input s /\ isLoading s' = isLoading s /\ pending s' = pending s /\
  sessionId s' = sessionId s /\ localStorage s' = localStorage s.
Proof.
  unfold loadHistory_resume, loadHistory_try. run.
  destruct r as [data|reason]; simpl; [|repeat split].
  repeat (split_read; simpl); repeat split.
Qed.

Lemma clearChat_resume_frame (r : AxiosResult) (now : Z) (s : AppState) :
  let s' := exec (clearChat_resume r now) s in
  input s' = input s /\ isLoading s' = isLoading s /\ pending s' = pending s.
Proof.
  unfold clearChat_resume, clearChat_try. run.
  destruct r as [data|reason]; simpl; repeat split.
Qed.

Lemma sendMessage_resume_frame (r : AxiosResult) (now : Z) (s : AppState) :
  let s' := exec (sendMessage_resume r now) s in
  input s' = input s /\ isLoading s' = false /\ pending s' = pending s /\
  sessionId s' = sessionId s /\ localStorage s' = localStorage s.
Proof.
  unfold sendMessage_resume, sendMessage_try, sendMessage_catch. run.
  destruct r as [data|reason]; simpl; [|repeat split].
  repeat (split_read; simpl); repeat split.
Qed.

(** *** One exchange at a time *)

Lemma filter_removeAt_other (i : nat) (l : list Request) (req : Request) :
  nth_error l i = Some req -> isPostChat req = false ->
  filter isPostChat (removeAt i l) = filter isPostChat l.
Proof.
  revert i. induction l as [|x rest IH]; intros [|i] H Hreq; simpl in *;
    try discriminate.
  - injection H as ->. now rewrite Hreq.
  - rewrite (IH i H Hreq). reflexivity.
Qed.

Lemma length_filter_removeAt_post (i : nat) (l : list Request) (req : Request) :
  nth_error l i = Some req -> isPostChat req = true ->
  S (List.length (filter isPostChat (removeAt i l))) = List.length (filter isPostChat l).
Proof.
  revert i. induction l as [|x rest IH]; intros [|i] H Hreq; simpl in *;
    try discriminate.
  - injection H as ->. now rewrite Hreq.
  - destruct (isPostChat x); simpl; rewrite (IH i H Hreq); reflexivity.
Qed.

Lemma Gated_boot (stored : option string) (now : Z) : Gated (boot stored now).
Proof.
  unfold boot, mount, loadHistory, initial, Gated, inFlight. run.
  destruct stored as [sid|]; simpl; [destruct (sid =? ""); simpl|];
    split; (reflexivity || discriminate).
Qed.

Lemma Gated_sendMessage (now : Z) (s : AppState) :
  isLoading s = false -> Gated s -> Gated (exec (sendMessage now) s).
Proof.
  intros Hidle [Hcount Hinput].
  destruct (string_dec (trim (input s)) "") as [Hblank|Htext]; unfold exec.
  - rewrite (sendMessage_blank now s Hblank). now split.
  - rewrite (sendMessage_text now s Htext). unfold Gated, inFlight in *. simpl.
    rewrite Hidle in Hcount. rewrite filter_app, length_app, Hcount.
    split; reflexivity.
Qed.

Lemma Gated_dispatch (e : Event) (s : AppState) : Gated s -> Gated (dispatch e s).
Proof.
  intros HG. destruct e as [value|key shiftKey now|now|confirmed|i r now]; simpl.
  - unfold inputDisabled. destruct (isLoading s) eqn:Hl; [assumption|].
    destruct HG as [Hc _]. unfold Gated, inFlight in *. run. rewrite Hl in *.
    split; [assumption|discriminate].
  - unfold inputDisabled, handleKeyPress. destruct (isLoading s) eqn:Hl; [assumption|].
    destruct ((key =? "Enter") && negb shiftKey); [|assumption].
    now apply Gated_sendMessage.
  - unfold sendDisabled. destruct (isLoading s) eqn:Hl; simpl; [assumption|].
    destruct (negb (negb (trim (input s) =? ""))); [assumption|].
    now apply Gated_sendMessage.
  - destruct confirmed; [|assumption].
    destruct HG as [Hc Hi]. unfold Gated, inFlight, clearChat in *. run.
    rewrite filter_app, length_app. simpl. rewrite Nat.add_0_r. now split.
  - destruct (nth_error (pending s) i) as [req|] eqn:Hreq; [|assumption].
    destruct HG as [Hc Hi]. unfold Gated, inFlight in *.
    unfold exec, bind, settled.
    set (s1 := mkState (messages s) (input s) (isLoading s) (sessionId s)
                       (localStorage s) (console s) (removeAt i (pending s))).
    change (snd (resume req r now s1)) with (exec (resume req r now) s1).
    destruct req as [sid|message sid|sid]; simpl resume.
    + destruct (loadHistory_resume_frame r s1) as (Ei & El & Ep & _).
      rewrite Ei, El, Ep. simpl.
      now rewrite (filter_removeAt_other i _ _ Hreq eq_refl).
    + destruct (sendMessage_resume_frame r now s1) as (Ei & El & Ep & _).
      rewrite El, Ep. simpl.
      pose proof (length_filter_removeAt_post i _ _ Hreq eq_refl) as Hlen.
      destruct (isLoading s); split; try discriminate; lia.
    + destruct (clearChat_resume_frame r now s1) as (Ei & El & Ep).
      rewrite Ei, El, Ep. simpl.
      now rewrite (filter_removeAt_other i _ _ Hreq eq_refl).
Qed.

Lemma Reachable_Gated (s : AppState) : Reachable s -> Gated s.
Proof.
  induction 1 as [stored now|e s _ IH].
  - apply Gated_boot.
  - now apply Gated_dispatch.
Qed.

(** C1: in every state the component can reach, at most one chat request is
    in flight; while the busy flag is set exactly one is, and a send is a
    no-op: the input and the Send button are disabled and the input is
    empty (line 61 empties it when the flag is set, and it cannot be edited
    while disabled), so a click on Send, a key press, an edit of the input
    and a run of [sendMessage] all leave the state as it is, appending
    nothing and issuing no request. *)
Theorem busy_send_is_gated (s : AppState) :
  Reachable s ->
  (inFlight s <= 1)%nat /\
  (isLoading s = true ->
   inFlight s = 1%nat /\ input s = "" /\
   (forall now, dispatch (ClickSend now) s = s) /\
   (forall key shiftKey now, dispatch (KeyPress key shiftKey now) s = s) /\
   (forall value, dispatch (Change value) s = s) /\
   (forall now, sendMessage now s = (Normal tt, s))).
Proof.
  intros HR. destruct (Reachable_Gated s HR) as [Hc Hi]. split.
  - rewrite Hc. destruct (isLoading s); lia.
  - intros Hl. rewrite Hl in Hc. specialize (Hi Hl). repeat split; try assumption.
    + intros now. simpl. unfold sendDisabled. now rewrite Hl.
    + intros key shiftKey now. simpl. unfold inputDisabled. now rewrite Hl.
    + intros value. simpl. unfold inputDisabled. now rewrite Hl.
    + intros now. apply sendMessage_blank. now rewrite Hi.
Qed.

Lemma busy_send_is_gated_witness :
  let s := dispatch (ClickSend 2) (dispatch (Change "hi") (boot None 1)) in
  isLoading s = true /\ inFlight s = 1%nat /\
  forall now, dispatch (ClickSend now) s = s.
Proof.
  intros s.
  assert (HR : Reachable s) by (unfold s; do 2 apply reach_step; apply reach_boot).
  destruct (busy_send_is_gated s HR) as [_ H].
  destruct (H eq_refl) as (H1 & _ & H3 & _).
  split; [reflexivity|]. split; assumption.
Defined.

(** *** The exchange of [sendMessage] *)

Lemma getProp_defined (data : Value) (k : string) :
  data <> Undefined -> data <> Null -> exists v, getProp data k = Normal v.
Proof.
  intros Hu Hn. destruct data; simpl; try contradiction; eauto.
Qed.

Lemma newDate_convertible (v : Value) : convertible v -> newDate v = Normal (DateOf v).
Proof. intros [p Hp]. unfold newDate. now rewrite Hp. Qed.

Lemma newDate_value (v : Value) (date : Date) : newDate v = Normal date -> date = DateOf v.
Proof.
  unfold newDate. destruct (toPrimitive v); [|discriminate]. now intros [= <-].
Qed.

(** A rejected request, and a body that is [null] or [undefined], make the
    [try] of [sendMessage] throw before it changes the state. *)
Lemma sendThrows_spec (r : AxiosResult) (s : AppState) :
  sendThrows r = true -> exists e, sendMessage_try r s = (Throw e, s).
Proof.
  unfold sendMessage_try. run.
  intros H. destruct r as [data|reason]; [|eauto].
  destruct data; simpl in *; try discriminate H; eauto.
Qed.

(** The [try] of [sendMessage] either throws before it changes the state or
    appends one [ai] message that has no [isError]. *)
Lemma sendMessage_try_cases (r : AxiosResult) (s : AppState) :
  (exists e, sendMessage_try r s = (Throw e, s)) \/
  (exists m,
     sendMessage_try r s =
     (Normal tt, mkState (messages s ++ [m]) (input s) (isLoading s) (sessionId s)
                         (localStorage s) (console s) (pending s)) /\
     sender m = ai /\ isError m = Undefined).
Proof.
  unfold sendMessage_try. run.
  destruct r as [data|reason]; simpl; [|left; eauto].
  repeat (split_read; simpl); try (left; eauto; fail).
  right. eexists. split; [reflexivity|]. now split.
Qed.

Lemma sendMessage_resume_fulfilled (data : Value) (now : Z) (s : AppState) :
  data <> Undefined -> data <> Null ->
  (forall ts, getProp data "timestamp" = Normal ts -> convertible ts) ->
  exists response ts tools_used,
    getProp data "response" = Normal response /\
    getProp data "timestamp" = Normal ts /\
    getProp data "tools_used" = Normal tools_used /\
    sendMessage_resume (Fulfilled data) now s =
    (Normal tt,
     mkState (messages s ++ [mkMessage response ai (DateOf ts)
                                       (orElse tools_used (Arr [])) Undefined])
             (input s) false (sessionId s) (localStorage s) (console s) (pending s)).
Proof.
  intros Hu Hn Hc.
  destruct (getProp_defined data "response" Hu Hn) as [response Hr].
  destruct (getProp_defined data "timestamp" Hu Hn) as [ts Ht].
  destruct (getProp_defined data "tools_used" Hu Hn) as [tools Hto].
  exists response, ts, tools. repeat split; try assumption.
  unfold sendMessage_resume, sendMessage_try. run.
  rewrite Hr, Ht, (newDate_convertible ts (Hc ts Ht)), Hto. reflexivity.
Qed.

Lemma sendMessage_resume_throws (r : AxiosResult) (now : Z) (s : AppState) :
  sendThrows r = true ->
  exists e,
    sendMessage_resume r now s =
    (Normal tt,
     mkState (messages s ++ [errorMessage now]) (input s) false (sessionId s)
             (localStorage s) (console s ++ [("Error:", e)]) (pending s)).
Proof.
  intros H. destruct (sendThrows_spec r s H) as [e He].
  exists e. unfold sendMessage_resume, tryFinally, tryCatch. rewrite He.
  reflexivity.
Qed.

(** Typing text into an idle component and clicking Send appends it. *)
Lemma type_then_send (s : AppState) (value : string) (now : Z) :
  isLoading s = false -> trim value <> "" ->
  messages (dispatch (ClickSend now) (dispatch (Change value) s)) =
  messages s ++ [userMessage value now].
Proof.
  intros Hl Hv. unfold dispatch at 2. unfold inputDisabled. rewrite Hl.
  set (s' := exec (setInput value) s).
  assert (Hl' : isLoading s' = false) by exact Hl.
  assert (Hi' : input s' = value) by reflexivity.
  unfold dispatch, sendDisabled. rewrite Hl', Hi', (trim_text_truthy _ Hv).
  unfold exec at 1. rewrite sendMessage_text by (rewrite Hi'; exact Hv).
  reflexivity.
Qed.

(** C8: once the request of a send has settled, in whatever way, the
    resumed handler completes normally with the busy flag cleared; the
    [finally] clears it after any body, also one that throws; and with the
    flag cleared the input accepts text again and Send appends it. *)
Theorem busy_flag_released (s : AppState) (now now' : Z) (r : AxiosResult) :
  trim (input s) <> "" ->
  let s1 := exec (sendMessage now) s in
  let s2 := exec (sendMessage_resume r now') s1 in
  isLoading s1 = true /\
  completion (sendMessage_resume r now') s1 = Normal tt /\
  isLoading s2 = false /\
  (forall (body : M unit) (s' : AppState),
      isLoading (exec (tryFinally body (setIsLoading false)) s') = false) /\
  (forall value now'',
      trim value <> "" ->
      messages (dispatch (ClickSend now'') (dispatch (Change value) s2)) =
      messages s2 ++ [userMessage value now'']).
Proof.
  intros Htext s1 s2.
  assert (Hl2 : isLoading s2 = false)
    by (destruct (sendMessage_resume_frame r now' s1) as (_ & H & _); exact H).
  split; [|split; [|split; [|split]]].
  - unfold s1, exec. now rewrite (sendMessage_text now s Htext).
  - unfold completion, sendMessage_resume, sendMessage_try, sendMessage_catch. run.
    destruct r as [data|reason]; simpl; [|reflexivity].
    repeat (split_read; simpl); reflexivity.
  - exact Hl2.
  - intros body s'. unfold exec, tryFinally, setIsLoading.
    destruct (body s') as [c s'']. reflexivity.
  - intros value now'' Hv. now apply type_then_send.
Qed.

Lemma busy_flag_released_witness :
  trim (input Samples.typedPing) <> "" /\
  isLoading (exec (sendMessage_resume (Fulfilled Null) 9)
                  (exec (sendMessage 2) Samples.typedPing)) = false.
Proof.
  assert (H : trim (input Samples.typedPing) <> "") by (simpl; discriminate).
  split; [exact H|].
  exact (proj1 (proj2 (proj2 (busy_flag_released Samples.typedPing 2 9 (Fulfilled Null) H)))).
Defined.

(** A reply whose [timestamp] cannot be made a primitive makes [new Date]
    throw inside the [try]: the fallback entry is appended instead. *)
Example sendMessage_timestamp_without_primitive :
  messages (exec (sendMessage_resume
                    (Fulfilled (Obj [("response", Str "pong");
                                     ("timestamp", Samples.noPrimitive)])) 9)
                 (exec (sendMessage 2) Samples.typedPing)) =
  [userMessage "ping" 2; errorMessage 9].
Proof. reflexivity. Qed.

(** C3: a send of text that is not blank completes successfully when its
    request is fulfilled with a body that can be read and whose [timestamp]
    [new Date] accepts (any string or other primitive, a missing one
    included).  It then adds two entries to the thread: the user message
    with the raw input and the clock of the send, then an [ai] message with
    the body's [response] as text, [new Date] of the body's [timestamp], the
    body's [tools_used] when it is an array and the empty array when it is
    missing, and [isError] not set, which reads as false. *)
Theorem sendMessage_success (s : AppState) (now now' : Z) (data : Value) :
  trim (input s) <> "" -> data <> Undefined -> data <> Null ->
  (forall ts, getProp data "timestamp" = Normal ts -> convertible ts) ->
  let s1 := exec (sendMessage now) s in
  let s2 := exec (sendMessage_resume (Fulfilled data) now') s1 in
  exists aiMessage,
    messages s2 = messages s ++ [userMessage (input s) now; aiMessage] /\
    getProp data "response" = Normal (text aiMessage) /\
    sender aiMessage = ai /\
    (exists ts, getProp data "timestamp" = Normal ts /\ timestamp aiMessage = DateOf ts) /\
    (forall l, getProp data "tools_used" = Normal (Arr l) -> toolsUsed aiMessage = Arr l) /\
    (getProp data "tools_used" = Normal Undefined -> toolsUsed aiMessage = Arr []) /\
    isError aiMessage = Undefined /\ truthy (isError aiMessage) = false.
Proof.
  intros Htext Hu Hn Hc s1 s2. unfold s2, s1, exec.
  rewrite (sendMessage_text now s Htext).
  match goal with
  | |- context [sendMessage_resume _ _ ?st] =>
      destruct (sendMessage_resume_fulfilled data now' st Hu Hn Hc)
        as (response & ts & tools & Hr & Ht & Hto & ->)
  end.
  exists (mkMessage response ai (DateOf ts) (orElse tools (Arr [])) Undefined). simpl.
  split; [now rewrite <- app_assoc|].
  split; [assumption|]. split; [reflexivity|]. split; [now exists ts|].
  split; [|split; [|split; reflexivity]].
  - intros l Hl. rewrite Hto in Hl. injection Hl as ->. reflexivity.
  - intros Hm. rewrite Hto in Hm. injection Hm as ->. reflexivity.
Qed.

Lemma sendMessage_success_witness :
  let s2 := exec (sendMessage_resume (Fulfilled Samples.pong) 9)
                 (exec (sendMessage 2) Samples.typedPing) in
  exists aiMessage,
    messages s2 = [] ++ [userMessage "ping" 2; aiMessage] /\
    getProp Samples.pong "response" = Normal (text aiMessage) /\
    sender aiMessage = ai /\
    (exists ts, getProp Samples.pong "timestamp" = Normal ts /\ timestamp aiMessage = DateOf ts) /\
    (forall l, getProp Samples.pong "tools_used" = Normal (Arr l) -> toolsUsed aiMessage = Arr l) /\
    (getProp Samples.pong "tools_used" = Normal Undefined -> toolsUsed aiMessage = Arr []) /\
    isError aiMessage = Undefined /\ truthy (isError aiMessage) = false.
Proof.
  apply (sendMessage_success Samples.typedPing 2 9 Samples.pong).
  - simpl. discriminate.
  - discriminate.
  - discriminate.
  - intros ts [= <-]. exists (Str "T"). reflexivity.
Defined.

(** C4, as the code has it: when the request of a send is rejected
    (transport error, status outside 2xx) or its body is [null], the thread
    gains the user message and then one [ai] entry with the fixed text,
    [isError] true and the clock of the failure; what was in the thread
    stays, the handler completes normally, no request is issued again and
    the busy flag is cleared. *)
Theorem sendMessage_failure (s : AppState) (now now' : Z) (r : AxiosResult) :
  trim (input s) <> "" -> sendThrows r = true ->
  let s1 := exec (sendMessage now) s in
  let s2 := exec (sendMessage_resume r now') s1 in
  messages s2 = messages s ++ [userMessage (input s) now; errorMessage now'] /\
  text (errorMessage now') = Str "Sorry, I encountered an error. Please try again." /\
  sender (errorMessage now') = ai /\
  timestamp (errorMessage now') = DateNow now' /\
  isError (errorMessage now') = Boolean true /\
  completion (sendMessage_resume r now') s1 = Normal tt /\
  pending s2 = pending s1 /\
  isLoading s2 = false.
Proof.
  intros Htext Hr s1 s2. unfold s2, completion, exec.
  destruct (sendMessage_resume_throws r now' s1 Hr) as [e ->]. simpl.
  unfold s1, exec. rewrite (sendMessage_text now s Htext). simpl.
  rewrite <- app_assoc. repeat split.
Qed.

Lemma sendMessage_failure_witness :
  messages (exec (sendMessage_resume (Rejected Samples.networkError) 9)
                 (exec (sendMessage 2) Samples.typedPing)) =
  [userMessage "ping" 2; errorMessage 9].
Proof.
  apply (sendMessage_failure Samples.typedPing 2 9 (Rejected Samples.networkError)).
  - simpl. discriminate.
  - reflexivity.
Defined.

(** C4, counterexample: a fulfilled request whose body is malformed, the
    empty object or a page of text, is not treated as a failure: the second
    entry has [undefined] as text and [isError] not set. *)
Lemma sendMessage_malformed_body_not_flagged :
  let s1 := exec (sendMessage 2) Samples.typedPing in
  messages (exec (sendMessage_resume (Fulfilled (Obj [])) 9) s1) =
    [userMessage "ping" 2; mkMessage Undefined ai (DateOf Undefined) (Arr []) Undefined] /\
  messages (exec (sendMessage_resume (Fulfilled (Str "<html>Bad Gateway</html>")) 9) s1) =
    [userMessage "ping" 2; mkMessage Undefined ai (DateOf Undefined) (Arr []) Undefined] /\
  messages (exec (sendMessage_resume (Fulfilled (Obj [])) 9) s1) <>
    [userMessage "ping" 2; errorMessage 9] /\
  console (exec (sendMessage_resume (Fulfilled (Obj [])) 9) s1) = [].
Proof.
  simpl. repeat split. discriminate.
Qed.

(** *** Session ids *)

Lemma to_int_proper (n : Z) :
  Z.to_int n <> Decimal.Pos Decimal.Nil /\ Z.to_int n <> Decimal.Neg Decimal.Nil.
Proof.
  destruct n as [|p|p]; simpl; split; try discriminate;
    intros [= H]; exact (DecimalPos.Unsigned.to_uint_nonnil p H).
Qed.

Lemma numberToString_inj (a b : Z) : numberToString a = numberToString b -> a = b.
Proof.
  unfold numberToString. intros H.
  apply (f_equal NilZero.int_of_string) in H.
  destruct (to_int_proper a) as [Ha1 Ha2]. destruct (to_int_proper b) as [Hb1 Hb2].
  rewrite !NilZero.isi in H by assumption.
  injection H as H. now apply DecimalZ.to_int_inj.
Qed.

Lemma newSessionId_inj (a b : Z) : newSessionId a = newSessionId b -> a = b.
Proof.
  unfold newSessionId. simpl. intros [= H]. now apply numberToString_inj.
Qed.

(** A reload finds the stored id and adopts it. *)
Lemma boot_stored (sid : string) (now : Z) :
  sid <> "" -> sessionId (boot (Some sid) now) = sid.
Proof.
  intros H. unfold boot, mount, loadHistory, initial. run.
  destruct (sid =? "") eqn:E; [apply String.eqb_eq in E; contradiction|].
  reflexivity.
Qed.

(** C2, as the code has it: a confirmed [clearChat] issues the deletion
    request and waits for it.  When the request is fulfilled, the thread is
    emptied, the stored session id is replaced by [session_<clock>], which
    differs from a prior id made at another clock reading, and a reload
    resolves to the new id.  When the request is rejected, the failure is
    logged and the thread, the session id and the stored id stay as they
    were; in both cases the handler completes normally. *)
Theorem clearChat_confirmed (s : AppState) (now : Z) :
  let s1 := exec (clearChat true) s in
  pending s1 = pending s ++ [DeleteSession (sessionId s)] /\
  messages s1 = messages s /\ localStorage s1 = localStorage s /\
  (forall data,
      let s2 := exec (clearChat_resume (Fulfilled data) now) s1 in
      completion (clearChat_resume (Fulfilled data) now) s1 = Normal tt /\
      messages s2 = [] /\
      sessionId s2 = newSessionId now /\
      localStorage s2 = Some (newSessionId now) /\
      console s2 = console s /\
      (forall now', sessionId (boot (localStorage s2) now') = newSessionId now) /\
      (forall t, t <> now -> sessionId s = newSessionId t -> sessionId s2 <> sessionId s)) /\
  (forall reason,
      let s2 := exec (clearChat_resume (Rejected reason) now) s1 in
      completion (clearChat_resume (Rejected reason) now) s1 = Normal tt /\
      messages s2 = messages s /\
      sessionId s2 = sessionId s /\
      localStorage s2 = localStorage s /\
      console s2 = console s ++ [("Error clearing session:", reason)]).
Proof.
  simpl. split; [reflexivity|]. split; [reflexivity|]. split; [reflexivity|]. split.
  - intros data. do 5 (split; [reflexivity|]). split.
    + intros now'. reflexivity.
    + intros t Hne Hprior Heq. rewrite Hprior in Heq.
      apply newSessionId_inj in Heq. congruence.
  - intros reason. repeat split.
Qed.

Lemma clearChat_confirmed_witness :
  let s1 := exec (clearChat true) Samples.chatted in
  let s2 := exec (clearChat_resume (Fulfilled (Str "")) 1700000000000) s1 in
  (1 <> 1700000000000)%Z /\ sessionId Samples.chatted = newSessionId 1 /\
  messages s2 = [] /\ sessionId s2 <> sessionId Samples.chatted.
Proof.
  intros s1 s2.
  destruct (clearChat_confirmed Samples.chatted 1700000000000) as (_ & _ & _ & Hok & _).
  destruct (Hok (Str "")) as (_ & Hm & _ & _ & _ & _ & Hfresh).
  assert (Hne : (1 <> 1700000000000)%Z) by discriminate.
  split; [exact Hne|]. split; [reflexivity|]. split; [exact Hm|].
  exact (Hfresh 1%Z Hne eq_refl).
Defined.

(** C2, counterexample: when the deletion request is rejected, the thread
    is not emptied and the stored session id is not replaced. *)
Lemma clearChat_rejected_keeps_thread :
  let s2 := exec (clearChat_resume (Rejected Samples.networkError) 1700000000000)
                 (exec (clearChat true) Samples.chatted) in
  messages s2 = messages Samples.chatted /\ messages s2 <> [] /\
  localStorage s2 = Some "session_1" /\ sessionId s2 = "session_1" /\
  sessionId (boot (localStorage s2) 1700000000001) = "session_1".
Proof.
  simpl. repeat split. discriminate.
Qed.

(** *** Hydration *)

Lemma strictEqualsStr_spec (v : Value) (k : string) :
  strictEqualsStr v k = true <-> v = Str k.
Proof.
  destruct v; simpl; try (split; [discriminate|intros [=]]).
  rewrite String.eqb_eq. split; [now intros ->|now intros [= ->]].
Qed.

Lemma historyMessage_readable (entry : Value) :
  readable entry -> exists m, historyMessage entry = Normal m /\ Hydrated entry m.
Proof.
  intros (Hu & Hn & Hc). unfold historyMessage, Hydrated.
  destruct (getProp_defined entry "content" Hu Hn) as [content ->].
  destruct (getProp_defined entry "role" Hu Hn) as [role ->].
  destruct (getProp_defined entry "timestamp" Hu Hn) as [ts Hts].
  rewrite Hts, (newDate_convertible ts (Hc ts Hts)).
  eexists. split; [reflexivity|]. simpl.
  split; [reflexivity|].
  pose proof (strictEqualsStr_spec role "user") as Hrole.
  destruct (strictEqualsStr role "user").
  - assert (role = Str "user") as -> by now apply Hrole.
    repeat split; try discriminate; try (now exists ts); congruence.
  - assert (Hne : role <> Str "user") by (intros E; apply Hrole in E; discriminate).
    repeat split; try discriminate; try (now exists ts); congruence.
Qed.

Lemma mapEntries_readable (l : list Value) :
  Forall readable l -> exists ms, mapEntries l = Normal ms /\ Forall2 Hydrated l ms.
Proof.
  induction 1 as [|entry rest Hentry _ (ms & Hms & IH)]; simpl.
  - exists []. split; [reflexivity|constructor].
  - destruct (historyMessage_readable entry Hentry) as (m & -> & Hm).
    rewrite Hms. exists (m :: ms). split; [reflexivity|now constructor].
Qed.


Lemma loadHistory_resume_array (data : Value) (l : list Value) (ms : list Message)
      (s : AppState) :
  getProp data "history" = Normal (Arr l) -> l <> [] -> mapEntries l = Normal ms ->
  loadHistory_resume (Fulfilled data) s =
  (Normal tt, mkState ms (input s) (isLoading s) (sessionId s) (localStorage s)
                      (console s) (pending s)).
Proof.
  intros Hh Hne Hms. destruct l as [|x rest]; [contradiction|].
  unfold loadHistory_resume, loadHistory_try, tryCatch, bind, await, ret, lift,
         setMessages.
  rewrite Hh. cbn -[mapEntries]. rewrite Hms. reflexivity.
Qed.

(** The thread a resumed [loadHistory] leaves is either fixed by the
    response or the thread it found. *)
Lemma loadHistory_resume_messages (r : AxiosResult) :
  (exists ms, forall s, messages (exec (loadHistory_resume r) s) = ms) \/
  (forall s, messages (exec (loadHistory_resume r) s) = messages s).
Proof.
  unfold loadHistory_resume, loadHistory_try. run.
  destruct r as [data|reason]; simpl; [|now right].
  repeat (split_read; simpl); try (now right).
  left. eexists. intros s. reflexivity.
Qed.

Lemma loadHistory_resume_twice (r : AxiosResult) (s : AppState) :
  messages (exec (loadHistory_resume r) (exec (loadHistory_resume r) s)) =
  messages (exec (loadHistory_resume r) s).
Proof.
  destruct (loadHistory_resume_messages r) as [[ms H]|H].
  - now rewrite !H.
  - now rewrite H.
Qed.

(** An entry whose [timestamp] cannot be made a primitive makes the [map]
    callback throw: the thread is not replaced and the failure is logged. *)
Example loadHistory_timestamp_without_primitive :
  let data := Obj [("history", Arr [Obj [("role", Str "user"); ("content", Str "hi");
                                         ("timestamp", Samples.noPrimitive)]])] in
  messages (exec (loadHistory_resume (Fulfilled data)) Samples.chatted) =
    messages Samples.chatted /\
  console (exec (loadHistory_resume (Fulfilled data)) Samples.chatted) =
    [("Failed to load history:", TypeError "Cannot convert object to primitive value")].
Proof. split; reflexivity. Qed.

(** C6, as the code has it: a history response whose [history] is an array
    with at least one entry, each of them readable (not [null], and with a
    [timestamp] that [new Date] accepts), replaces the thread by
    one message per entry, in the order of the response, each with the
    entry's [content], sender [user] exactly when [role] is ["user"] and
    [new Date] of the entry's [timestamp]; nothing else of the state changes;
    and for any response, resuming twice with it leaves the thread that
    resuming once leaves. *)
Theorem loadHistory_hydrates (s : AppState) (data : Value) (l : list Value) :
  getProp data "history" = Normal (Arr l) -> l <> [] -> Forall readable l ->
  let s' := exec (loadHistory_resume (Fulfilled data)) s in
  completion (loadHistory_resume (Fulfilled data)) s = Normal tt /\
  Forall2 Hydrated l (messages s') /\
  s' = mkState (messages s') (input s) (isLoading s) (sessionId s) (localStorage s)
               (console s) (pending s) /\
  (forall s0, messages (exec (loadHistory_resume (Fulfilled data)) s0) = messages s') /\
  (forall r s0,
      messages (exec (loadHistory_resume r) (exec (loadHistory_resume r) s0)) =
      messages (exec (loadHistory_resume r) s0)).
Proof.
  intros Hh Hne Hall s'.
  destruct (mapEntries_readable l Hall) as (ms & Hms & Hhyd).
  unfold s', completion, exec.
  rewrite (loadHistory_resume_array data l ms s Hh Hne Hms). simpl.
  repeat split; try assumption.
  - intros s0. now rewrite (loadHistory_resume_array data l ms s0 Hh Hne Hms).
  - intros r s0. apply loadHistory_resume_twice.
Qed.

Lemma loadHistory_hydrates_witness :
  let data := Obj [("history", Arr Samples.twoEntries)] in
  let s' := exec (loadHistory_resume (Fulfilled data)) (boot (Some "session_1") 5) in
  Forall2 Hydrated Samples.twoEntries (messages s') /\
  messages (exec (loadHistory_resume (Fulfilled data)) s') = messages s'.
Proof.
  intros data s'.
  assert (Hr : Forall readable Samples.twoEntries).
  { repeat constructor; try discriminate;
      intros ts [= <-]; eexists; reflexivity. }
  assert (Hne : Samples.twoEntries <> []) by discriminate.
  destruct (loadHistory_hydrates (boot (Some "session_1") 5) data Samples.twoEntries
                                 eq_refl Hne Hr) as (_ & H1 & _ & H2 & _).
  split; [exact H1|exact (H2 s')].
Defined.

(** C6, counterexample: a history response with an empty [history] array
    does not replace the thread.  A user who resumes a session and sends
    ["hi"] before the history arrives keeps that message, where replacing
    the thread by the mapped entries would leave it empty. *)
Lemma loadHistory_empty_array_no_replace :
  let s := Samples.sentBeforeHistory in
  let s' := dispatch (Settle 0 (Fulfilled (Obj [("history", Arr [])])) 7) s in
  Reachable s /\
  nth_error (pending s) 0 = Some (GetHistory "session_1") /\
  mapEntries [] = Normal [] /\
  messages s' = [userMessage "hi" 6] /\
  messages s' <> [].
Proof.
  simpl. split; [|repeat split; discriminate].
  apply (reach_step (ClickSend 6)), (reach_step (Change "hi")), reach_boot.
Qed.

(** The [try] of [loadHistory] changes the state in its last step only. *)
Lemma loadHistory_try_throws (r : AxiosResult) (s s' : AppState) (e : Error) :
  loadHistory_try r s = (Throw e, s') -> s' = s.
Proof.
  unfold loadHistory_try. run.
  destruct r as [data|reason]; simpl; [|now intros [= _ <-]].
  repeat (split_read; simpl); intros [=]; subst; reflexivity.
Qed.

(** C7: when the hydration attempt fails, the request being rejected or the
    reading of its body throwing, the handler completes normally, writes one
    line to the console and leaves the thread, and the rest of the state, as
    they were; a rejected request always fails so. *)
Theorem loadHistory_failure_silent (r : AxiosResult) (s : AppState) (e : Error) :
  completion (loadHistory_try r) s = Throw e ->
  let s' := exec (loadHistory_resume r) s in
  completion (loadHistory_resume r) s = Normal tt /\
  messages s' = messages s /\
  console s' = console s ++ [("Failed to load history:", e)] /\
  s' = mkState (messages s) (input s) (isLoading s) (sessionId s) (localStorage s)
               (console s ++ [("Failed to load history:", e)]) (pending s) /\
  (forall reason s0, completion (loadHistory_try (Rejected reason)) s0 = Throw reason).
Proof.
  unfold completion, exec, loadHistory_resume, tryCatch. intros H.
  destruct (loadHistory_try r s) as [c s1] eqn:E. simpl in H. subst c.
  apply loadHistory_try_throws in E. subst s1. simpl. repeat split.
Qed.

Lemma loadHistory_failure_silent_witness :
  messages (exec (loadHistory_resume (Rejected Samples.networkError)) Samples.chatted) =
    messages Samples.chatted /\
  messages (exec (loadHistory_resume (Fulfilled Null)) Samples.chatted) =
    messages Samples.chatted /\
  messages (exec (loadHistory_resume (Fulfilled (Obj [("history", Arr [Null])])))
                 Samples.chatted) =
    messages Samples.chatted.
Proof.
  split; [|split].
  - exact (proj1 (proj2 (loadHistory_failure_silent
                           (Rejected Samples.networkError) Samples.chatted
                           Samples.networkError eq_refl))).
  - exact (proj1 (proj2 (loadHistory_failure_silent
                           (Fulfilled Null) Samples.chatted
                           (TypeError "Cannot read properties of null (reading 'history')")
                           eq_refl))).
  - exact (proj1 (proj2 (loadHistory_failure_silent
                           (Fulfilled (Obj [("history", Arr [Null])])) Samples.chatted
                           (TypeError "Cannot read properties of null (reading 'content')")
                           eq_refl))).
Defined.

(** C9: when the request is fulfilled and the body's [history] is missing,
    [null] or the empty array, the resumed [loadHistory] completes normally
    and the state, the thread included, is exactly the one it found. *)
Theorem loadHistory_no_history_noop (data : Value) (s : AppState) :
  getProp data "history" = Normal Undefined \/
  getProp data "history" = Normal Null \/
  getProp data "history" = Normal (Arr []) ->
  loadHistory_resume (Fulfilled data) s = (Normal tt, s) /\
  messages (exec (loadHistory_resume (Fulfilled data)) s) = messages s.
Proof.
  intros H. unfold exec, loadHistory_resume, loadHistory_try. run.
  destruct H as [-> | [-> | ->]]; simpl; split; reflexivity.
Qed.

Lemma loadHistory_no_history_noop_witness :
  loadHistory_resume (Fulfilled (Obj [("history", Arr [])])) Samples.chatted =
    (Normal tt, Samples.chatted) /\
  loadHistory_resume (Fulfilled (Obj [])) Samples.chatted = (Normal tt, Samples.chatted).
Proof.
  split.
  - apply (loadHistory_no_history_noop (Obj [("history", Arr [])]) Samples.chatted).
    right. right. reflexivity.
  - apply (loadHistory_no_history_noop (Obj []) Samples.chatted).
    left. reflexivity.
Defined.

(* ===================================================================== *)
(** ** Further properties of the handlers *)
(* ===================================================================== *)

Import Render Trace.

(** *** The mount effect and the session id *)

(** X1: the mount effect resumes a stored session id that is not empty: it
    adopts it, leaves the stored item alone and issues one history request
    for it.  With no stored id, or an empty one, it makes the id
    [session_<clock>], stores it and issues no request.  Either way the
    thread starts empty and the component is idle. *)
Theorem mount_resolves (stored : option string) (now : Z) :
  let s := boot stored now in
  (forall sid, stored = Some sid -> sid <> "" ->
     sessionId s = sid /\ localStorage s = Some sid /\ pending s = [GetHistory sid]) /\
  (stored = None \/ stored = Some "" ->
     sessionId s = newSessionId now /\ localStorage s = Some (newSessionId now) /\
     pending s = []) /\
  messages s = [] /\ input s = "" /\ isLoading s = false /\ console s = [].
Proof.
  unfold boot, mount, loadHistory, initial. run. split; [|split].
  - intros sid -> Hne. simpl.
    destruct (sid =? "") eqn:E; [apply String.eqb_eq in E; contradiction|].
    simpl. repeat split.
  - intros [-> | ->]; simpl; repeat split.
  - destruct stored as [sid|]; simpl; [destruct (sid =? ""); simpl|]; repeat split.
Qed.

Lemma mount_resolves_witness :
  pending (boot (Some "session_1") 5) = [GetHistory "session_1"] /\
  localStorage (boot None 5) = Some "session_5".
Proof.
  split.
  - destruct (mount_resolves (Some "session_1") 5) as (H & _).
    destruct (H "session_1" eq_refl) as (_ & _ & Hp); [discriminate|exact Hp].
  - destruct (mount_resolves None 5) as (_ & H & _).
    destruct (H (or_introl eq_refl)) as (_ & Hl & _). exact Hl.
Defined.

(** X2: the generated session id is [session_] followed by the decimal
    digits of the clock reading; two ids are equal exactly when the clock
    readings are, and an id is never the empty string. *)
Theorem newSessionId_distinct (a b : Z) :
  (newSessionId a = newSessionId b <-> a = b) /\
  newSessionId a <> "" /\
  prefix "session_" (newSessionId a) = true.
Proof.
  split; [split|split].
  - apply newSessionId_inj.
  - now intros ->.
  - discriminate.
  - unfold newSessionId. simpl. now destruct (numberToString a).
Qed.

(** *** Enter and Send *)

(** X3: in every state, pressing Enter without Shift in the input does what
    a click on Send does; any other key, and Enter with Shift, changes
    nothing. *)
Theorem enter_is_send (s : AppState) (now : Z) :
  dispatch (KeyPress "Enter" false now) s = dispatch (ClickSend now) s /\
  dispatch (KeyPress "Enter" true now) s = s /\
  (forall key shiftKey, key <> "Enter" -> dispatch (KeyPress key shiftKey now) s = s).
Proof.
  split; [|split].
  - simpl. unfold inputDisabled, sendDisabled, handleKeyPress. simpl.
    destruct (isLoading s); simpl; [reflexivity|].
    destruct (trim (input s) =? "") eqn:E; simpl; [|reflexivity].
    apply String.eqb_eq in E. unfold exec. now rewrite (sendMessage_blank now s E).
  - simpl. unfold inputDisabled, handleKeyPress. simpl. now destruct (isLoading s).
  - intros key shiftKey Hk. simpl. unfold inputDisabled, handleKeyPress.
    destruct (isLoading s); [reflexivity|].
    destruct (key =? "Enter") eqn:E; [apply String.eqb_eq in E; contradiction|].
    reflexivity.
Qed.

Lemma enter_is_send_witness :
  dispatch (KeyPress "a" false 7) Samples.typedPing = Samples.typedPing.
Proof.
  apply (enter_is_send Samples.typedPing 7). discriminate.
Defined.

(** X4: [sendMessage] leaves the state as it is exactly when the input
    consists of white space only (the empty input included); otherwise it
    appends the user message with the raw input, empties the input, sets
    the busy flag and issues one chat request with the raw input and the
    session id in use. *)
Theorem sendMessage_guard_exact (now : Z) (s : AppState) :
  (exec (sendMessage now) s = s <-> blank (input s) = true) /\
  (blank (input s) = false ->
   exec (sendMessage now) s =
   mkState (messages s ++ [userMessage (input s) now]) "" true (sessionId s)
           (localStorage s) (console s)
           (pending s ++ [PostChat (input s) (sessionId s)])).
Proof.
  assert (Hsend : blank (input s) = false ->
                  exec (sendMessage now) s =
                  mkState (messages s ++ [userMessage (input s) now]) "" true (sessionId s)
                          (localStorage s) (console s)
                          (pending s ++ [PostChat (input s) (sessionId s)])).
  { intros Hb. unfold exec. rewrite sendMessage_text; [reflexivity|].
    intros Ht. apply trim_blank in Ht. congruence. }
  split; [split|exact Hsend].
  - intros Heq. destruct (blank (input s)) eqn:Hb; [reflexivity|].
    rewrite (Hsend eq_refl) in Heq.
    apply (f_equal (fun x => List.length (pending x))) in Heq. simpl in Heq.
    rewrite length_app in Heq. simpl in Heq. lia.
  - intros Hb. apply trim_blank in Hb. unfold exec.
    now rewrite (sendMessage_blank now s Hb).
Qed.

Lemma sendMessage_guard_exact_witness :
  blank (input Samples.typedPing) = false /\
  pending (exec (sendMessage 2) Samples.typedPing) = [PostChat "ping" "session_1"].
Proof.
  split; [reflexivity|].
  rewrite (proj2 (sendMessage_guard_exact 2 Samples.typedPing) eq_refl). reflexivity.
Defined.

(** *** Settled requests *)

Lemma dispatch_settle (i : nat) (r : AxiosResult) (now : Z) (s : AppState) (req : Request) :
  nth_error (pending s) i = Some req ->
  dispatch (Settle i r now) s =
  exec (resume req r now)
       (mkState (messages s) (input s) (isLoading s) (sessionId s) (localStorage s)
                (console s) (removeAt i (pending s))).
Proof. intros H. simpl. rewrite H. reflexivity. Qed.

(** Whatever the settlement, the resumed [sendMessage] appends one [ai]
    message, clears the busy flag and may write to the console. *)
Lemma sendMessage_resume_appends (r : AxiosResult) (now : Z) (s : AppState) :
  exists m lines,
    sendMessage_resume r now s =
    (Normal tt, mkState (messages s ++ [m]) (input s) false (sessionId s)
                        (localStorage s) (console s ++ lines) (pending s)) /\
    sender m = ai /\
    (isError m = Undefined \/ m = errorMessage now).
Proof.
  unfold sendMessage_resume, tryFinally, tryCatch.
  destruct (sendMessage_try_cases r s) as [[e ->] | (m & -> & Hai & Herr)].
  - exists (errorMessage now), [("Error:", e)]. repeat split. now right.
  - exists m, []. rewrite app_nil_r. repeat split; [exact Hai|now left].
Qed.

Lemma settle_chat (i : nat) (r : AxiosResult) (now : Z) (s : AppState)
      (message sid : string) :
  nth_error (pending s) i = Some (PostChat message sid) ->
  exists m lines,
    dispatch (Settle i r now) s =
    mkState (messages s ++ [m]) (input s) false (sessionId s) (localStorage s)
            (console s ++ lines) (removeAt i (pending s)) /\
    sender m = ai /\
    (isError m = Undefined \/ m = errorMessage now).
Proof.
  intros H. rewrite (dispatch_settle i r now s _ H). simpl resume.
  match goal with
  | |- context [exec (sendMessage_resume r now) ?st] =>
      destruct (sendMessage_resume_appends r now st) as (m & lines & Hrun & Hai & Herr)
  end.
  exists m, lines. unfold exec. rewrite Hrun. simpl. now repeat split.
Qed.

(** X5: when a chat request settles, however it settles, the thread gains
    exactly one [ai] message at its end and the busy flag is cleared.  The
    session id the request was made for is not compared with the one in use:
    a reply that arrives after the session changed is appended all the
    same. *)
Theorem chat_reply_always_appended
        (i : nat) (r : AxiosResult) (now : Z) (s : AppState) (message sid : string) :
  nth_error (pending s) i = Some (PostChat message sid) ->
  let s' := dispatch (Settle i r now) s in
  (exists m, messages s' = messages s ++ [m] /\ sender m = ai) /\
  isLoading s' = false /\
  sessionId s' = sessionId s /\
  pending s' = removeAt i (pending s).
Proof.
  intros H s'. unfold s'.
  destruct (settle_chat i r now s message sid H) as (m & lines & -> & Hai & _).
  simpl. repeat split. now exists m.
Qed.

Lemma chat_reply_always_appended_witness :
  nth_error (pending clearedWhileSending) 0 = Some (PostChat "hi" "session_5") /\
  sessionId clearedWhileSending = "session_9" /\
  messages clearedWhileSending = [] /\
  exists m,
    messages (dispatch (Settle 0 (Fulfilled Samples.pong) 10) clearedWhileSending) =
    [] ++ [m] /\ sender m = ai.
Proof.
  split; [reflexivity|]. split; [reflexivity|]. split; [reflexivity|].
  exact (proj1 (chat_reply_always_appended 0 (Fulfilled Samples.pong) 10
                  clearedWhileSending "hi" "session_5" eq_refl)).
Defined.

(** *** The busy flag is never stuck *)

Lemma filter_nth_error (l : list Request) :
  filter isPostChat l <> [] -> exists i req, nth_error l i = Some req /\ isPostChat req = true.
Proof.
  induction l as [|x rest IH]; simpl; [contradiction|].
  destruct (isPostChat x) eqn:E.
  - intros _. exists 0%nat, x. now split.
  - intros H. destruct (IH H) as (i & req & Hi & Hr). exists (S i), req. now split.
Qed.

(** X6: in every state the component can reach, no chat request is in
    flight while the busy flag is clear; while it is set there is a chat
    request in flight, and its settling, in whatever way, clears the flag
    and leaves no chat request in flight. *)
Theorem busy_flag_never_stuck (s : AppState) :
  Reachable s ->
  (isLoading s = false -> inFlight s = 0%nat) /\
  (isLoading s = true ->
   exists i message sid,
     nth_error (pending s) i = Some (PostChat message sid) /\
     forall r now,
       isLoading (dispatch (Settle i r now) s) = false /\
       inFlight (dispatch (Settle i r now) s) = 0%nat).
Proof.
  intros HR. pose proof (Reachable_Gated s HR) as [Hc _]. split.
  - intros Hl. now rewrite Hl in Hc.
  - intros Hl. rewrite Hl in Hc.
    assert (Hne : filter isPostChat (pending s) <> []).
    { unfold inFlight in Hc. destruct (filter isPostChat (pending s)); [discriminate|].
      discriminate. }
    destruct (filter_nth_error _ Hne) as (i & req & Hi & Hreq).
    destruct req as [sid|message sid|sid]; try discriminate.
    exists i, message, sid. split; [exact Hi|]. intros r now.
    pose proof (Reachable_Gated _ (reach_step (Settle i r now) s HR)) as [Hc' _].
    destruct (settle_chat i r now s message sid Hi) as (m & lines & Hs & _).
    rewrite Hs in Hc' |- *. simpl in *. now split.
Qed.

Lemma busy_flag_never_stuck_witness :
  let s := dispatch (ClickSend 2) (dispatch (Change "hi") (boot None 1)) in
  isLoading s = true /\
  exists i message sid,
    nth_error (pending s) i = Some (PostChat message sid) /\
    forall r now,
      isLoading (dispatch (Settle i r now) s) = false /\
      inFlight (dispatch (Settle i r now) s) = 0%nat.
Proof.
  intros s.
  assert (HR : Reachable s) by (unfold s; do 2 apply reach_step; apply reach_boot).
  split; [reflexivity|].
  exact (proj2 (busy_flag_never_stuck s HR) eq_refl).
Defined.

(** *** What an event does to the requests, the session and the thread *)

Lemma sendMessage_cases (now : Z) (s : AppState) :
  exec (sendMessage now) s = s \/
  exec (sendMessage now) s =
  mkState (messages s ++ [userMessage (input s) now]) "" true (sessionId s)
          (localStorage s) (console s) (pending s ++ [PostChat (input s) (sessionId s)]).
Proof.
  unfold exec. destruct (string_dec (trim (input s)) "") as [Hb|Ht].
  - left. now rewrite (sendMessage_blank now s Hb).
  - right. now rewrite (sendMessage_text now s Ht).
Qed.

(** Change, key press and click on Send: nothing, an edit of the input, or
    a send. *)
Lemma user_event_cases (e : Event) (s : AppState) :
  match e with
  | Change _ | KeyPress _ _ _ | ClickSend _ => True
  | _ => False
  end ->
  dispatch e s = s \/
  (exists value, dispatch e s = exec (setInput value) s) \/
  (exists now, dispatch e s = exec (sendMessage now) s).
Proof.
  destruct e as [value|key shiftKey now|now| |]; simpl; try contradiction; intros _.
  - unfold inputDisabled. destruct (isLoading s); [now left|]. right. left. now exists value.
  - unfold inputDisabled, handleKeyPress. destruct (isLoading s); [now left|].
    destruct ((key =? "Enter") && negb shiftKey); [|now left]. right. right. now exists now.
  - destruct (sendDisabled s); [now left|]. right. right. now exists now.
Qed.

Lemma clearChat_resume_cases (r : AxiosResult) (now : Z) (s : AppState) :
  exec (clearChat_resume r now) s =
    mkState [] (input s) (isLoading s) (newSessionId now) (Some (newSessionId now))
            (console s) (pending s) \/
  exists line,
    exec (clearChat_resume r now) s =
    mkState (messages s) (input s) (isLoading s) (sessionId s) (localStorage s)
            (console s ++ [line]) (pending s).
Proof.
  unfold clearChat_resume, clearChat_try. run.
  destruct r as [data|reason]; simpl; [now left|]. right. eexists. reflexivity.
Qed.

Lemma loadHistory_resume_cases (r : AxiosResult) (s : AppState) :
  exists msgs lines,
    exec (loadHistory_resume r) s =
    mkState msgs (input s) (isLoading s) (sessionId s) (localStorage s)
            (console s ++ lines) (pending s) /\
    (msgs = messages s \/ exists l, mapEntries l = Normal msgs).
Proof.
  unfold loadHistory_resume, loadHistory_try. run.
  destruct r as [data|reason]; simpl.
  - repeat (split_read; simpl);
      try (exists (messages s), []; rewrite app_nil_r; destruct s; simpl;
           split; [reflexivity|now left]);
      try (exists (messages s); eexists; split; [reflexivity|now left]).
    match goal with
    | H : callMap ?h = Normal ?ms |- _ =>
        exists ms, []; rewrite app_nil_r; split; [reflexivity|right];
        destruct h; try discriminate H; eexists; exact H
    end.
  - exists (messages s). eexists. split; [reflexivity|now left].
Qed.

(** The requests in flight after an event: the same, one more chat or
    deletion request for the session id in use, or one fewer. *)
Lemma pending_dispatch (e : Event) (s : AppState) :
  pending (dispatch e s) = pending s \/
  pending (dispatch e s) = pending s ++ [PostChat (input s) (sessionId s)] \/
  pending (dispatch e s) = pending s ++ [DeleteSession (sessionId s)] \/
  exists i, pending (dispatch e s) = removeAt i (pending s).
Proof.
  destruct e as [value|key shiftKey now|now|confirmed|i r now].
  - destruct (user_event_cases (Change value) s I) as [-> | [[v ->] | [now ->]]];
      [now left|now left|].
    destruct (sendMessage_cases now s) as [-> | ->]; [now left|right; now left].
  - destruct (user_event_cases (KeyPress key shiftKey now) s I)
      as [-> | [[v ->] | [now' ->]]]; [now left|now left|].
    destruct (sendMessage_cases now' s) as [-> | ->]; [now left|right; now left].
  - destruct (user_event_cases (ClickSend now) s I) as [-> | [[v ->] | [now' ->]]];
      [now left|now left|].
    destruct (sendMessage_cases now' s) as [-> | ->]; [now left|right; now left].
  - destruct confirmed; [right; right; now left|now left].
  - destruct (nth_error (pending s) i) as [req|] eqn:Hreq;
      [|left; simpl; now rewrite Hreq].
    right. right. right. exists i. rewrite (dispatch_settle i r now s req Hreq).
    destruct req as [sid|message sid|sid]; simpl resume.
    + match goal with
      | |- context [exec (loadHistory_resume r) ?st] =>
          destruct (loadHistory_resume_frame r st) as (_ & _ & Hp & _)
      end. exact Hp.
    + match goal with
      | |- context [exec (sendMessage_resume r now) ?st] =>
          destruct (sendMessage_resume_frame r now st) as (_ & _ & Hp & _)
      end. exact Hp.
    + match goal with
      | |- context [exec (clearChat_resume r now) ?st] =>
          destruct (clearChat_resume_frame r now st) as (_ & _ & Hp)
      end. exact Hp.
Qed.

Lemma length_filter_removeAt_le {A} (f : A -> bool) (i : nat) (l : list A) :
  (List.length (filter f (removeAt i l)) <= List.length (filter f l))%nat.
Proof.
  revert i. induction l as [|x rest IH]; intros [|i]; simpl; try lia.
  - destruct (f x); simpl; lia.
  - specialize (IH i). destruct (f x); simpl; lia.
Qed.

Lemma Forall_removeAt {A} (P : A -> Prop) (i : nat) (l : list A) :
  Forall P l -> Forall P (removeAt i l).
Proof.
  intros H. revert i. induction H as [|x rest Hx Hrest IH]; intros [|i]; simpl.
  - constructor.
  - constructor.
  - exact Hrest.
  - constructor; [exact Hx|apply IH].
Qed.

(** *** The history is loaded at most once *)

Lemma historyLoads_dispatch (e : Event) (s : AppState) :
  (historyLoads (dispatch e s) <= historyLoads s)%nat.
Proof.
  unfold historyLoads.
  destruct (pending_dispatch e s) as [-> | [-> | [-> | [i ->]]]].
  - lia.
  - rewrite filter_app, length_app. simpl. lia.
  - rewrite filter_app, length_app. simpl. lia.
  - apply length_filter_removeAt_le.
Qed.

(** X7: [loadHistory] runs from the mount effect only: in every state the
    component can reach at most one history request is in flight, none when
    the component started without a stored session id, and no event adds
    one. *)
Theorem history_loaded_at_most_once (s : AppState) :
  Reachable s ->
  (historyLoads s <= 1)%nat /\
  (forall e, (historyLoads (dispatch e s) <= historyLoads s)%nat) /\
  (forall now evs, historyLoads (fold_left (fun acc e => dispatch e acc) evs (boot None now))
                   = 0%nat).
Proof.
  intros HR. split; [|split].
  - induction HR as [stored now|e s _ IH].
    + unfold historyLoads, boot, mount, loadHistory, initial. run.
      destruct stored as [sid|]; simpl; [destruct (sid =? ""); simpl|]; lia.
    + pose proof (historyLoads_dispatch e s). lia.
  - intros e. apply historyLoads_dispatch.
  - intros now evs.
    assert (H : forall s0, historyLoads s0 = 0%nat ->
                           historyLoads (fold_left (fun acc e => dispatch e acc) evs s0) = 0%nat).
    { induction evs as [|e rest IH]; intros s0 H0; simpl; [exact H0|].
      apply IH. pose proof (historyLoads_dispatch e s0). lia. }
    apply H. reflexivity.
Qed.

Lemma history_loaded_at_most_once_witness :
  (historyLoads Samples.sentBeforeHistory <= 1)%nat.
Proof.
  apply (history_loaded_at_most_once Samples.sentBeforeHistory).
  apply (reach_step (ClickSend 6)), (reach_step (Change "hi")), reach_boot.
Defined.

(** *** The session id in use is the stored one *)

Lemma session_dispatch (e : Event) (s : AppState) :
  (sessionId (dispatch e s) = sessionId s /\ localStorage (dispatch e s) = localStorage s) \/
  exists now,
    sessionId (dispatch e s) = newSessionId now /\
    localStorage (dispatch e s) = Some (newSessionId now).
Proof.
  destruct e as [value|key shiftKey now|now|confirmed|i r now].
  - destruct (user_event_cases (Change value) s I) as [-> | [[v ->] | [now ->]]];
      [now left|now left|].
    destruct (sendMessage_cases now s) as [-> | ->]; now left.
  - destruct (user_event_cases (KeyPress key shiftKey now) s I)
      as [-> | [[v ->] | [now' ->]]]; [now left|now left|].
    destruct (sendMessage_cases now' s) as [-> | ->]; now left.
  - destruct (user_event_cases (ClickSend now) s I) as [-> | [[v ->] | [now' ->]]];
      [now left|now left|].
    destruct (sendMessage_cases now' s) as [-> | ->]; now left.
  - destruct confirmed; now left.
  - destruct (nth_error (pending s) i) as [req|] eqn:Hreq;
      [|left; simpl; now rewrite Hreq].
    rewrite (dispatch_settle i r now s req Hreq).
    destruct req as [sid|message sid|sid]; simpl resume.
    + match goal with
      | |- context [exec (loadHistory_resume r) ?st] =>
          destruct (loadHistory_resume_frame r st) as (_ & _ & _ & Hs & Hl)
      end. left. now split.
    + match goal with
      | |- context [exec (sendMessage_resume r now) ?st] =>
          destruct (sendMessage_resume_frame r now st) as (_ & _ & _ & Hs & Hl)
      end. left. now split.
    + match goal with
      | |- context [exec (clearChat_resume r now) ?st] =>
          destruct (clearChat_resume_cases r now st) as [-> | [line ->]]
      end; [right; now exists now|now left].
Qed.

Lemma Identified_boot (stored : option string) (now : Z) : Identified (boot stored now).
Proof.
  unfold Identified, boot, mount, loadHistory, initial. run.
  destruct stored as [sid|]; simpl; [destruct (sid =? "") eqn:E; simpl|].
  - repeat split; [discriminate|constructor].
  - apply String.eqb_neq in E. repeat split; [exact E|]. now repeat constructor.
  - repeat split; [discriminate|constructor].
Qed.

Lemma Identified_dispatch (e : Event) (s : AppState) :
  Identified s -> Identified (dispatch e s).
Proof.
  intros (Hl & Hs & Hp). unfold Identified. split; [|split].
  - destruct (session_dispatch e s) as [[-> ->] | (now & -> & ->)]; [exact Hl|reflexivity].
  - destruct (session_dispatch e s) as [[-> _] | (now & -> & _)]; [exact Hs|discriminate].
  - destruct (pending_dispatch e s) as [-> | [-> | [-> | [i ->]]]].
    + exact Hp.
    + apply Forall_app. split; [exact Hp|]. now repeat constructor.
    + apply Forall_app. split; [exact Hp|]. now repeat constructor.
    + now apply Forall_removeAt.
Qed.

(** X8: in every state the component can reach, the stored session id is
    the one in use, it is not the empty string, and every request in flight
    was made for a session id that is not empty. *)
Theorem session_id_persisted (s : AppState) :
  Reachable s ->
  localStorage s = Some (sessionId s) /\
  sessionId s <> "" /\
  Forall (fun r => requestSession r <> "") (pending s).
Proof.
  induction 1 as [stored now|e s _ IH].
  - apply Identified_boot.
  - now apply Identified_dispatch.
Qed.

Lemma session_id_persisted_witness :
  localStorage clearedWhileSending = Some (sessionId clearedWhileSending).
Proof.
  apply (session_id_persisted clearedWhileSending).
  unfold clearedWhileSending. do 4 apply reach_step. apply reach_boot.
Defined.

(** *** The thread is extended at its end *)

(** X9: an event other than the settling of a history request or of a
    deletion request keeps every message of the thread in place and adds at
    most one message at the end. *)
Theorem thread_append_only (e : Event) (s : AppState) :
  replaces e s = false ->
  exists suffix,
    messages (dispatch e s) = messages s ++ suffix /\ (List.length suffix <= 1)%nat.
Proof.
  assert (Hsame : forall s', messages s' = messages s ->
                             exists suffix, messages s' = messages s ++ suffix /\
                                            (List.length suffix <= 1)%nat).
  { intros s' ->. exists []. rewrite app_nil_r. split; [reflexivity|simpl; lia]. }
  assert (Hsend : forall now, exists suffix,
               messages (exec (sendMessage now) s) = messages s ++ suffix /\
               (List.length suffix <= 1)%nat).
  { intros now. destruct (sendMessage_cases now s) as [-> | ->]; [now apply Hsame|].
    eexists. split; [reflexivity|simpl; lia]. }
  intros Hrep. destruct e as [value|key shiftKey now|now|confirmed|i r now].
  - destruct (user_event_cases (Change value) s I) as [-> | [[v ->] | [now ->]]];
      [now apply Hsame|now apply Hsame|apply Hsend].
  - destruct (user_event_cases (KeyPress key shiftKey now) s I)
      as [-> | [[v ->] | [now' ->]]]; [now apply Hsame|now apply Hsame|apply Hsend].
  - destruct (user_event_cases (ClickSend now) s I) as [-> | [[v ->] | [now' ->]]];
      [now apply Hsame|now apply Hsame|apply Hsend].
  - apply Hsame. now destruct confirmed.
  - simpl in Hrep. destruct (nth_error (pending s) i) as [req|] eqn:Hreq.
    + destruct req as [sid|message sid|sid]; try discriminate Hrep.
      destruct (settle_chat i r now s message sid Hreq) as (m & lines & -> & _).
      exists [m]. split; [reflexivity|simpl; lia].
    + apply Hsame. simpl. now rewrite Hreq.
Qed.

Lemma thread_append_only_witness :
  exists suffix,
    messages (dispatch (ClickSend 2) Samples.typedPing) =
    messages Samples.typedPing ++ suffix /\ (List.length suffix <= 1)%nat.
Proof.
  apply (thread_append_only (ClickSend 2) Samples.typedPing). reflexivity.
Defined.

(** *** A conversation, turn by turn *)

Lemma turn_effect (t : Turn) (s : AppState) :
  isLoading s = false -> pending s = [] -> trim (typed t) <> "" ->
  exists m lines,
    turn t s =
    mkState (messages s ++ [userMessage (typed t) (sentAt t); m]) "" false (sessionId s)
            (localStorage s) (console s ++ lines) [] /\
    sender m = ai.
Proof.
  intros Hl Hp Ht. unfold turn.
  assert (H1 : dispatch (Change (typed t)) s =
               mkState (messages s) (typed t) false (sessionId s) (localStorage s)
                       (console s) []).
  { simpl. unfold inputDisabled. rewrite Hl. unfold exec, setInput. simpl.
    now rewrite Hl, Hp. }
  rewrite H1.
  assert (H2 : dispatch (ClickSend (sentAt t))
                        (mkState (messages s) (typed t) false (sessionId s)
                                 (localStorage s) (console s) []) =
               mkState (messages s ++ [userMessage (typed t) (sentAt t)]) "" true
                       (sessionId s) (localStorage s) (console s)
                       [PostChat (typed t) (sessionId s)]).
  { unfold dispatch, sendDisabled. simpl isLoading. simpl input.
    rewrite (trim_text_truthy _ Ht). simpl orb. cbv iota.
    unfold exec. rewrite sendMessage_text by exact Ht. reflexivity. }
  rewrite H2.
  match goal with
  | |- context [dispatch (Settle 0 ?r ?now) ?st] =>
      destruct (settle_chat 0 r now st (typed t) (sessionId s) eq_refl)
        as (m & lines & -> & Hai & _)
  end.
  exists m, lines. simpl. rewrite <- app_assoc. now split.
Qed.

Lemma filter_isUser_turn (l : list Message) (value : string) (now : Z) (m : Message) :
  sender m = ai ->
  filter isUser (l ++ [userMessage value now; m]) = filter isUser l ++ [userMessage value now].
Proof.
  intros Hai. rewrite filter_app. f_equal. simpl.
  assert (Hm : isUser m = false) by (unfold isUser; now rewrite Hai).
  now rewrite Hm.
Qed.

(** X10: in a conversation held turn by turn from an idle component with no
    request in flight, each turn with text that is not blank, the user
    messages of the thread are the ones already there followed by the typed
    texts in the order they were sent, each turn adds two entries, and the
    component ends idle with nothing in flight. *)
Theorem conversation_keeps_order (ts : list Turn) (s : AppState) :
  isLoading s = false -> pending s = [] ->
  Forall (fun t => trim (typed t) <> "") ts ->
  let s' := converse ts s in
  filter isUser (messages s') =
    filter isUser (messages s) ++ List.map (fun t => userMessage (typed t) (sentAt t)) ts /\
  List.length (messages s') = (List.length (messages s) + 2 * List.length ts)%nat /\
  isLoading s' = false /\ pending s' = [] /\ sessionId s' = sessionId s.
Proof.
  intros Hl Hp Hts. revert s Hl Hp.
  induction Hts as [|t rest Ht _ IH]; intros s Hl Hp; simpl.
  - rewrite app_nil_r. repeat split; try assumption. lia.
  - destruct (turn_effect t s Hl Hp Ht) as (m & lines & Hturn & Hai).
    specialize (IH (turn t s)). rewrite Hturn in IH |- *.
    destruct (IH eq_refl eq_refl) as (Hu & Hn & Hl' & Hp' & Hs'). simpl in *.
    unfold converse in *. rewrite Hu, Hn, Hl', Hp', Hs'.
    rewrite (filter_isUser_turn _ _ _ _ Hai), length_app, <- app_assoc. simpl.
    repeat split. lia.
Qed.

Lemma conversation_keeps_order_witness :
  filter isUser (messages (converse twoTurns (boot None 1))) =
  [] ++ [userMessage "ping" 2; userMessage "again" 4].
Proof.
  apply (conversation_keeps_order twoTurns (boot None 1) eq_refl eq_refl).
  repeat constructor; simpl; discriminate.
Defined.

(** *** The shape of the messages in the thread *)

Lemma historyMessage_shape (entry : Value) (m : Message) :
  historyMessage entry = Normal m -> toolsUsed m = Undefined /\ isError m = Undefined.
Proof.
  unfold historyMessage.
  destruct (getProp entry "content"); [|discriminate].
  destruct (getProp entry "role"); [|discriminate].
  destruct (getProp entry "timestamp") as [ts|]; [|discriminate].
  destruct (newDate ts); [|discriminate].
  intros [= <-]. now split.
Qed.

Lemma mapEntries_shape (l : list Value) (ms : list Message) :
  mapEntries l = Normal ms -> Forall WellShaped ms.
Proof.
  revert ms. induction l as [|entry rest IH]; simpl; intros ms.
  - intros [= <-]. constructor.
  - destruct (historyMessage entry) as [m|] eqn:Hm; [|discriminate].
    destruct (mapEntries rest) as [ms'|]; [|discriminate].
    intros [= <-]. destruct (historyMessage_shape entry m Hm) as [Ht He].
    constructor; [|now apply IH]. split; [now left|now intros _].
Qed.

(** The thread after an event: the same, one well-shaped message more,
    empty, or the messages made from a history response. *)
Lemma thread_dispatch (e : Event) (s : AppState) :
  messages (dispatch e s) = messages s \/
  (exists m, messages (dispatch e s) = messages s ++ [m] /\ WellShaped m) \/
  messages (dispatch e s) = [] \/
  exists l, mapEntries l = Normal (messages (dispatch e s)).
Proof.
  assert (Hsend : forall now,
             messages (exec (sendMessage now) s) = messages s \/
             (exists m, messages (exec (sendMessage now) s) = messages s ++ [m] /\
                        WellShaped m)).
  { intros now. destruct (sendMessage_cases now s) as [-> | ->]; [now left|right].
    eexists. split; [reflexivity|]. split; [now left|now intros _]. }
  destruct e as [value|key shiftKey now|now|confirmed|i r now].
  - destruct (user_event_cases (Change value) s I) as [-> | [[v ->] | [now ->]]];
      [now left|now left|].
    destruct (Hsend now) as [H | H]; [now left|right; now left].
  - destruct (user_event_cases (KeyPress key shiftKey now) s I)
      as [-> | [[v ->] | [now' ->]]]; [now left|now left|].
    destruct (Hsend now') as [H | H]; [now left|right; now left].
  - destruct (user_event_cases (ClickSend now) s I) as [-> | [[v ->] | [now' ->]]];
      [now left|now left|].
    destruct (Hsend now') as [H | H]; [now left|right; now left].
  - left. now destruct confirmed.
  - destruct (nth_error (pending s) i) as [req|] eqn:Hreq;
      [|left; simpl; now rewrite Hreq].
    destruct req as [sid|message sid|sid].
    + rewrite (dispatch_settle i r now s _ Hreq). simpl resume.
      match goal with
      | |- context [exec (loadHistory_resume r) ?st] =>
          destruct (loadHistory_resume_cases r st) as (msgs & lines & -> & [-> | [l Hl]])
      end; [now left|]. right. right. right. now exists l.
    + destruct (settle_chat i r now s message sid Hreq) as (m & lines & -> & Hai & Herr).
      right. left. exists m. split; [reflexivity|]. split.
      * destruct Herr as [He | ->]; [now left|right; now exists now].
      * intros Hu. rewrite Hai in Hu. discriminate.
    + rewrite (dispatch_settle i r now s _ Hreq). simpl resume.
      match goal with
      | |- context [exec (clearChat_resume r now) ?st] =>
          destruct (clearChat_resume_cases r now st) as [-> | [line ->]]
      end; [right; right; now left|now left].
Qed.

Lemma Reachable_WellShaped (s : AppState) : Reachable s -> Forall WellShaped (messages s).
Proof.
  induction 1 as [stored now|e s _ IH].
  - unfold boot, mount, loadHistory, initial. run.
    destruct stored as [sid|]; simpl; [destruct (sid =? ""); simpl|]; constructor.
  - destruct (thread_dispatch e s) as [-> | [(m & -> & Hm) | [-> | [l Hl]]]].
    + exact IH.
    + apply Forall_app. split; [exact IH|]. now constructor.
    + constructor.
    + now apply (mapEntries_shape l).
Qed.

Lemma Reachable_converse (ts : list Turn) (s : AppState) :
  Reachable s -> Reachable (converse ts s).
Proof.
  revert s. induction ts as [|t rest IH]; intros s HR; [exact HR|].
  change (converse (t :: rest) s) with (converse rest (turn t s)).
  apply IH. unfold turn. now do 3 apply reach_step.
Qed.

Lemma className_error (m : Message) :
  className m = "message ai error" <-> sender m = ai /\ truthy (isError m) = true.
Proof.
  unfold className. destruct (sender m), (truthy (isError m)); simpl;
    split; try discriminate; try (intros [? ?]; discriminate); now split.
Qed.

(** X11: in every state the component can reach, each message of the thread
    either has no [isError] or is the fallback entry; a user message has
    neither [toolsUsed] nor [isError]; and a message is rendered with the
    class [message ai error] exactly when it is the fallback entry. *)
Theorem thread_messages_shaped (s : AppState) (m : Message) :
  Reachable s -> In m (messages s) ->
  (isError m = Undefined \/ exists now, m = errorMessage now) /\
  (sender m = user -> toolsUsed m = Undefined /\ isError m = Undefined) /\
  (className m = "message ai error" <-> exists now, m = errorMessage now).
Proof.
  intros HR Hin.
  pose proof (proj1 (Forall_forall _ _) (Reachable_WellShaped s HR) m Hin) as [Herr Huser].
  split; [exact Herr|]. split; [exact Huser|].
  rewrite className_error. split.
  - intros [_ Ht]. destruct Herr as [He | H]; [|exact H].
    rewrite He in Ht. discriminate.
  - intros [now ->]. now split.
Qed.

Lemma thread_messages_shaped_witness :
  let s := converse twoTurns (boot None 1) in
  In (errorMessage 5) (messages s) /\
  (className (errorMessage 5) = "message ai error" <-> exists now, errorMessage 5 = errorMessage now).
Proof.
  intros s.
  assert (Hin : In (errorMessage 5) (messages s)) by (simpl; right; right; right; now left).
  assert (HR : Reachable s) by (apply Reachable_converse, reach_boot).
  split; [exact Hin|].
  exact (proj2 (proj2 (thread_messages_shaped s (errorMessage 5) HR Hin))).
Defined.

(** *** The tools line of a reply *)

(** An array is made a string by joining its elements with commas. *)
Lemma toString_array (l : list Value) : toString (Arr l) = arrayJoin "," l.
Proof.
  unfold arrayJoin. simpl.
  match goal with
  | |- match ?f l with _ => _ end = _ =>
      assert (H : forall l', f l' = elementStrings l')
  end.
  { induction l' as [|x rest IH]; simpl; [reflexivity|]. now rewrite IH. }
  now rewrite H.
Qed.




(** *** A settled history or deletion request and a send in flight *)

(** X13: the settling of a history request or of a deletion request,
    however it settles, leaves the input, the busy flag and the chat
    requests in flight as they are: clearing the conversation does not
    cancel a send that is under way. *)
Theorem settle_leaves_send_in_flight
        (i : nat) (r : AxiosResult) (now : Z) (s : AppState) (req : Request) :
  nth_error (pending s) i = Some req -> isPostChat req = false ->
  let s' := dispatch (Settle i r now) s in
  input s' = input s /\
  isLoading s' = isLoading s /\
  pending s' = removeAt i (pending s) /\
  filter isPostChat (pending s') = filter isPostChat (pending s).
Proof.
  intros Hreq Hkind s'.
  assert (H : input s' = input s /\ isLoading s' = isLoading s /\
              pending s' = removeAt i (pending s)).
  { unfold s'. rewrite (dispatch_settle i r now s req Hreq).
    destruct req as [sid|message sid|sid]; try discriminate Hkind; simpl resume.
    - match goal with
      | |- context [exec (loadHistory_resume r) ?st] =>
          destruct (loadHistory_resume_frame r st) as (Hi & Hl & Hp & _)
      end. now repeat split.
    - match goal with
      | |- context [exec (clearChat_resume r now) ?st] =>
          destruct (clearChat_resume_frame r now st) as (Hi & Hl & Hp)
      end. now repeat split. }
  destruct H as (Hi & Hl & Hp). repeat split; try assumption.
  rewrite Hp. now apply (filter_removeAt_other i (pending s) req).
Qed.

Lemma settle_leaves_send_in_flight_witness :
  let s := dispatch (ClickClear true)
                    (dispatch (ClickSend 6) (dispatch (Change "hi") (boot None 5))) in
  isLoading (dispatch (Settle 1 (Fulfilled (Str "")) 9) s) = isLoading s /\
  filter isPostChat (pending (dispatch (Settle 1 (Fulfilled (Str "")) 9) s)) =
  filter isPostChat (pending s).
Proof.
  intros s.
  destruct (settle_leaves_send_in_flight 1 (Fulfilled (Str "")) 9 s
              (DeleteSession "session_5") eq_refl eq_refl) as (_ & Hl & _ & Hf).
  now split.
Defined.
